(** * Telephone game backend: the chain orchestrator of [backend/main.py]

    A shallow embedding of the FastAPI backend of the telephone game
    (TTS -> STT -> TTS -> STT ... for N children, streamed as events) and
    the properties of its event stream.

    Conventions of the embedding:
    - a Python [str] is a [string]; its characters are read as the code
      points U+0000..U+00FF;
    - a Python [bytes] is a [list byte];
    - a Python [int] is a [Z];
    - a [dict] with string keys that is only looked up is a [gmap string];
      a [dict] literal that is serialised is an association list, in the
      order of the literal;
    - the speech models are outside the program: every call into an adapter
      is a transition of an abstract [World] and is recorded in a trace;
    - the generator is its body in a monad of world, trace, exception and
      [return]; the trace keeps the events it yields between the calls it
      makes, in the order in which a consumer that reads the stream to its
      end sees them happen. *)

From Stdlib Require Import ZArith NArith Ascii Strings.Byte DecimalString Lia.
From stdpp Require Import base option list strings gmap.

Local Open Scope Z_scope.

(** ** Python strings *)

Module Py.

(** [str.isspace] on one character, for the code points below 256:
  U+0009..U+000D, U+001C..U+0020, U+0085 and U+00A0. *)
Definition isspace (c : ascii) : bool :=
let n := N_of_ascii c in
((9 <=? n) && (n <=? 13) || (28 <=? n) && (n <=? 32) || (n =? 133) || (n =? 160))%N.

(** [s.lstrip()], [s.rstrip()] and [s.strip()] without argument. *)
Fixpoint lstrip (s : string) : string :=
match s with
| EmptyString => EmptyString
| String c s' => if isspace c then lstrip s' else s
end.

Fixpoint rstrip (s : string) : string :=
match s with
| EmptyString => EmptyString
| String c s' =>
    match rstrip s' with
    | EmptyString => if isspace c then EmptyString else String c EmptyString
    | r => String c r
    end
end.

Definition strip (s : string) : string := rstrip (lstrip s).

(** Truth value of a [str]: the empty string is false. *)
Definition truthy (s : string) : bool :=
match s with
| EmptyString => false
| String _ _ => true
end.

(** [a or b] on strings. *)
Definition or_str (a b : string) : string := if truthy a then a else b.

(** [a or b] where [a] may be [None]. *)
Definition opt_or (a : option string) (b : string) : string :=
match a with
| Some s => or_str s b
| None => b
end.

(** A string made of whitespace only (the empty string included). *)
Fixpoint all_space (s : string) : bool :=
match s with
| EmptyString => true
| String c s' => isspace c && all_space s'
end.

End Py.

(** ** [base64.b64encode] *)

Module Base64.

Definition alphabet : string :=
"ABCDEFGHIJKLMNOPQRSTUVWXYZabcdefghijklmnopqrstuvwxyz0123456789+/".

Definition pad : ascii := "="%char.

(** The character of a 6-bit group. *)
Definition char_of (n : N) : ascii :=
match String.get (N.to_nat n) alphabet with
| Some c => c
| None => pad
end.

(** The 6-bit group of a character of the alphabet. *)
Definition index_of (c : ascii) : option N :=
let n := N_of_ascii c in
(if (65 <=? n) && (n <=? 90) then Some (n - 65)
 else if (97 <=? n) && (n <=? 122) then Some (n - 97 + 26)
 else if (48 <=? n) && (n <=? 57) then Some (n - 48 + 52)
 else if n =? 43 then Some 62
 else if n =? 47 then Some 63
 else None)%N.

(** [base64.b64encode(bs).decode("ascii")] (main.py:88): RFC 4648 section 4,
  standard alphabet, three bytes to four characters, padded with '='. The
  result is ASCII, so the [decode] is the identity on the characters. *)
Fixpoint b64encode (bs : list byte) : string :=
match bs with
| [] => EmptyString
| [a] =>
    let x := Byte.to_N a in
    String (char_of (x / 4))
      (String (char_of (x mod 4 * 16))
         (String pad (String pad EmptyString)))
| [a; b] =>
    let x := Byte.to_N a in
    let y := Byte.to_N b in
    String (char_of (x / 4))
      (String (char_of (x mod 4 * 16 + y / 16))
         (String (char_of (y mod 16 * 4)) (String pad EmptyString)))
| a :: b :: c :: rest =>
    let x := Byte.to_N a in
    let y := Byte.to_N b in
    let z := Byte.to_N c in
    String (char_of (x / 4))
      (String (char_of (x mod 4 * 16 + y / 16))
         (String (char_of (y mod 16 * 4 + z / 64))
            (String (char_of (z mod 64)) (b64encode rest))))
end%N.

(** The decoding of RFC 4648 section 4, what [base64.b64decode] and a
  browser's [atob] compute on a padded base64 text: four characters to
  three bytes, '=' only at the end. [None] on anything else. *)
Fixpoint b64decode (s : string) : option (list byte) :=
match s with
| EmptyString => Some []
| String c0 (String c1 (String c2 (String c3 rest))) =>
    s0 ← index_of c0;
    s1 ← index_of c1;
    if Ascii.eqb c2 pad then
      if Ascii.eqb c3 pad && negb (Py.truthy rest) then
        a ← Byte.of_N (s0 * 4 + s1 / 16)%N;
        Some [a]
      else None
    else
      s2 ← index_of c2;
      if Ascii.eqb c3 pad then
        if negb (Py.truthy rest) then
          a ← Byte.of_N (s0 * 4 + s1 / 16)%N;
          b ← Byte.of_N (s1 mod 16 * 16 + s2 / 4)%N;
          Some [a; b]
        else None
      else
        s3 ← index_of c3;
        a ← Byte.of_N (s0 * 4 + s1 / 16)%N;
        b ← Byte.of_N (s1 mod 16 * 16 + s2 / 4)%N;
        c ← Byte.of_N (s2 mod 4 * 64 + s3)%N;
        tl ← b64decode rest;
        Some (a :: b :: c :: tl)
| _ => None
end.

End Base64.

(** ** Exceptions, JSON values and the trace of a run *)

(** The exceptions of the program: the two it raises itself, and whatever an
    adapter or a model library raises, of which the program observes the
    class ([isinstance(e, Exception)]) and [str(e)]. *)
Inductive PyExc : Type :=
  | HTTPException (status_code : Z) (detail : string)
  | ValueError (msg : string)
  | Exc (cls : string) (is_Exception : bool) (msg : string).

(** [isinstance(e, Exception)]: what [except Exception] catches.
    [KeyboardInterrupt], [SystemExit], [GeneratorExit] and
    [asyncio.CancelledError] derive from [BaseException] only. *)
Definition isinstance_Exception (e : PyExc) : bool :=
  match e with
  | HTTPException _ _ => true
  | ValueError _ => true
  | Exc _ b _ => b
  end.

(** [str(e)]; Starlette prints an [HTTPException] as
    [f"{status_code}: {detail}"]. *)
Definition str (e : PyExc) : string :=
  match e with
  | HTTPException status_code detail =>
      NilZero.string_of_int (Z.to_int status_code) +:+ ": " +:+ detail
  | ValueError msg => msg
  | Exc _ _ msg => msg
  end.

(** The result of a call that may raise. *)
Inductive Res (A : Type) : Type :=
  | Ok (a : A)
  | Err (e : PyExc).
Arguments Ok {A} a.
Arguments Err {A} e.

Definition is_Ok {A} (r : Res A) : bool :=
  match r with
  | Ok _ => true
  | Err _ => false
  end.

(** The values of the event dictionaries. *)
Inductive JVal : Type :=
  | JStr (s : string)
  | JInt (n : Z).

(** A [dict] literal handed to [_sse_message]: keys in the order written. *)
Definition Dict : Type := list (string * JVal).

Fixpoint dict_get (d : Dict) (k : string) : option JVal :=
  match d with
  | [] => None
  | (k', v) :: d' => if String.eqb k k' then Some v else dict_get d' k
  end.

(** [json.dumps] with its default settings, on the dictionaries of the
    program: [", "] and [": "] as separators, strings in double quotes with
    every character outside [' '..'~'] escaped ([ensure_ascii]). *)
Module Json.

Definition quote : ascii := ascii_of_nat 34.
Definition newline : ascii := ascii_of_nat 10.

Definition hex_digit (n : N) : ascii :=
  match String.get (N.to_nat n) "0123456789abcdef" with
  | Some c => c
  | None => "0"%char
  end.

Definition escape (c : ascii) : string :=
  let n := N_of_ascii c in
  (if n =? 34 then String "\" (String quote EmptyString)
   else if n =? 92 then "\\"
   else if n =? 10 then "\n"
   else if n =? 13 then "\r"
   else if n =? 9 then "\t"
   else if n =? 8 then "\b"
   else if n =? 12 then "\f"
   else if (n <? 32) || (126 <? n) then
     "\u00" +:+ String (hex_digit (n / 16)) (String (hex_digit (n mod 16)) EmptyString)
   else String c EmptyString)%N.

Fixpoint escape_all (s : string) : string :=
  match s with
  | EmptyString => EmptyString
  | String c s' => escape c +:+ escape_all s'
  end.

Definition dumps_str (s : string) : string :=
  String quote (escape_all s +:+ String quote EmptyString).

Definition dumps_val (v : JVal) : string :=
  match v with
  | JStr s => dumps_str s
  | JInt n => NilZero.string_of_int (Z.to_int n)
  end.

Fixpoint dumps_items (d : Dict) : string :=
  match d with
  | [] => EmptyString
  | [(k, v)] => dumps_str k +:+ ": " +:+ dumps_val v
  | (k, v) :: d' => dumps_str k +:+ ": " +:+ dumps_val v +:+ ", " +:+ dumps_items d'
  end.

Definition dumps (d : Dict) : string := "{" +:+ dumps_items d +:+ "}".

End Json.

(** [_sse_message(data)]: the frame [f"data: {json.dumps(data)}\n\n"] of a
    server-sent event. *)
Definition _sse_message (data : Dict) : string :=
  "data: " +:+ Json.dumps data
  +:+ String Json.newline (String Json.newline EmptyString).

(** What a run does that can be observed from outside, in order. A
    [Yield d] is [yield _sse_message(d)], kept as the dictionary [d] of the
    frame. *)
Inductive Action : Type :=
  | Instantiate (registry key : string) (ok : bool)
  | Synthesize (text : string) (r : Res (list byte))
  | Transcribe (audio_bytes : list byte) (content_type : string) (r : Res string)
  | Yield (d : Dict).

(** ** Adapters ([services/tts.py], [services/asr.py]) *)

Section Adapters.
Variable W : Type.

(** [class TTSAdapter(ABC)]: [synthesize(text) -> bytes]. *)
Record TTSAdapter : Type := { synthesize : string -> W -> Res (list byte) * W }.

(** [class ASRAdapter(ABC)]: [transcribe(audio_bytes, content_type) -> str]. *)
Record ASRAdapter : Type :=
  { transcribe : list byte -> string -> W -> Res string * W }.
End Adapters.
Arguments synthesize {W} _ _ _.
Arguments transcribe {W} _ _ _ _.

(** The concrete adapter classes, called without argument as the registries
    do: [LocalWhisperASRAdapter()] loads the Whisper model in [__init__] and
    the Chatterbox adapters load theirs at the first [synthesize]. Their
    behaviour is the models', so they are the parameters of the development. *)
Class Models : Type := {
  World : Type;
  LocalWhisperASRAdapter : World -> Res (ASRAdapter World) * World;
  ChatterboxTTSAdapter : World -> Res (TTSAdapter World) * World;
  ChatterboxTurboTTSAdapter : World -> Res (TTSAdapter World) * World;
}.

(** ** The monad of a request: world, trace, exceptions and [return] *)

(** How a piece of the generator ends: normally with a value, with an
    exception, or with the generator's [return]. *)
Inductive Outcome (A : Type) : Type :=
  | Normal (a : A)
  | Raised (e : PyExc)
  | Returned.
Arguments Normal {A} a.
Arguments Raised {A} e.
Arguments Returned {A}.

Section Program.
Context `{Models}.

Record Out (A : Type) : Type :=
  mkOut { trace : list Action; outcome : Outcome A; world : World }.
Arguments mkOut {A} _ _ _.
Arguments trace {A} _.
Arguments outcome {A} _.
Arguments world {A} _.

Definition M (A : Type) : Type := World -> Out A.

Definition ret {A} (a : A) : M A := fun w => mkOut [] (Normal a) w.

Definition bind {A B} (m : M A) (f : A -> M B) : M B :=
  fun w =>
    match m w with
    | mkOut tr (Normal a) w' =>
        match f a w' with
        | mkOut tr' o w'' => mkOut (tr ++ tr') o w''
        end
    | mkOut tr (Raised e) w' => mkOut tr (Raised e) w'
    | mkOut tr Returned w' => mkOut tr Returned w'
    end.

(** [raise e] *)
Definition raise {A} (e : PyExc) : M A := fun w => mkOut [] (Raised e) w.

(** [return] inside the generator *)
Definition return_ {A} : M A := fun w => mkOut [] Returned w.

(** [yield _sse_message(d)] *)
Definition yield_ (d : Dict) : M unit := fun w => mkOut [Yield d] (Normal tt) w.

(** [try: m  except Exception as e: h e] *)
Definition try_except_Exception {A} (m : M A) (h : PyExc -> M A) : M A :=
  fun w =>
    match m w with
    | mkOut tr (Raised e) w' =>
        if isinstance_Exception e then
          match h e w' with
          | mkOut tr' o w'' => mkOut (tr ++ tr') o w''
          end
        else mkOut tr (Raised e) w'
    | r => r
    end.

(** A call into the world, recorded in the trace. *)
Definition call {A} (f : World -> Res A * World) (log : Res A -> Action) : M A :=
  fun w =>
    let '(r, w') := f w in
    mkOut [log r] (match r with Ok a => Normal a | Err e => Raised e end) w'.

(** [for x in xs: s = body x s], with the loop-carried variable [s]. *)
Fixpoint for_ {A S} (xs : list A) (body : A -> S -> M S) (s : S) : M S :=
  match xs with
  | [] => ret s
  | x :: xs' => bind (body x s) (for_ xs' body)
  end.

End Program.

Arguments mkOut {_ A} _ _ _.
Arguments trace {_ A} _.
Arguments outcome {_ A} _.
Arguments world {_ A} _.

Declare Scope py_scope.
Delimit Scope py_scope with py.
Notation "x <- m ;; k" := (bind m (fun x => k))
  (at level 100, m at next level, right associativity) : py_scope.
Notation "m ;; k" := (bind m (fun _ => k))
  (at level 100, right associativity) : py_scope.
Notation "'try_' m 'except_Exception' h" := (try_except_Exception m h)
  (at level 10, m at level 9, h at level 9) : py_scope.

(** [range(n)]: empty when [n <= 0]. *)
Definition range (n : Z) : list Z := map Z.of_nat (seq 0 (Z.to_nat n)).

(** ** The event dictionaries of [_run_telephone_stream] *)

Definition error_event (step : string) (child_index : Z) (message : string) : Dict :=
  [("type", JStr "error"); ("step", JStr step);
   ("child_index", JInt child_index); ("message", JStr message)].

Definition tts_event (child_index : Z) (text audio_base64 : string) : Dict :=
  [("type", JStr "tts"); ("child_index", JInt child_index);
   ("text", JStr text); ("audio_base64", JStr audio_base64)].

Definition stt_event (child_index : Z) (text : string) : Dict :=
  [("type", JStr "stt"); ("child_index", JInt child_index); ("text", JStr text)].

Definition done_event (final_text : string) : Dict :=
  [("type", JStr "done"); ("final_text", JStr final_text)].

(** ** Requests *)

(** [class GameParams(BaseModel)] *)
Record GameParams : Type := {
  gp_num_children : Z;
  gp_asr_model : string;
  gp_tts_model : string;
  gp_text : option string;
}.

(** The constraints of the fields: [num_children: int = Field(ge=1, le=20)]. *)
Definition GameParams_valid (params : GameParams) : bool :=
  (1 <=? gp_num_children params) && (gp_num_children params <=? 20).

(** An uploaded file: what [await audio.read()] gives, and its content type. *)
Record UploadFile : Type := {
  uf_contents : list byte;
  uf_content_type : option string;
}.

(** ** The backend ([main.py]) *)

Section Backend.
Context `{Models}.
Local Open Scope py_scope.

(** [StreamingResponse(gen, media_type=..., headers=...)]: the generator
    is not started by the endpoint; the server iterates it afterwards. *)
Record StreamingResponse : Type := {
  body_iterator : M unit;
  media_type : string;
  headers : list (string * string);
}.

(** Model registry (extensible) *)
Definition ASR_MODELS : gmap string (World -> Res (ASRAdapter World) * World) :=
  {[ "whisper" := LocalWhisperASRAdapter ]}.

Definition TTS_MODELS : gmap string (World -> Res (TTSAdapter World) * World) :=
  <[ "chatterbox" := ChatterboxTTSAdapter ]>
    {[ "chatterbox-turbo" := ChatterboxTurboTTSAdapter ]}.

Definition _get_asr (asr_model : string) : M (ASRAdapter World) :=
  match ASR_MODELS !! asr_model with
  | None => raise (HTTPException 400 ("Unknown ASR model: " +:+ asr_model))
  | Some cls => call cls (fun r => Instantiate "ASR_MODELS" asr_model (is_Ok r))
  end.

Definition _get_tts (tts_model : string) (voice_uuid : option string)
  : M (TTSAdapter World) :=
  match TTS_MODELS !! tts_model with
  | None => raise (HTTPException 400 ("Unknown TTS model: " +:+ tts_model))
  | Some cls => call cls (fun r => Instantiate "TTS_MODELS" tts_model (is_Ok r))
  end.

(** [tts.synthesize(text)] and [asr.transcribe(audio_bytes, content_type)] *)
Definition call_synthesize (tts : TTSAdapter World) (text : string) : M (list byte) :=
  call (synthesize tts text) (Synthesize text).

Definition call_transcribe (asr : ASRAdapter World) (audio_bytes : list byte)
    (content_type : string) : M string :=
  call (transcribe asr audio_bytes content_type) (Transcribe audio_bytes content_type).

(** One turn of the loop of [_run_telephone_stream] (main.py:76-111): the
    child speaks [current_text] and the next child hears the new text. *)
Definition child_step (tts : TTSAdapter World) (asr : ASRAdapter World)
    (child_index : Z) (current_text : string) : M string :=
  (* TTS: current text -> audio *)
  audio_bytes <- try_ (call_synthesize tts current_text)
                 except_Exception (fun e =>
                   yield_ (error_event "tts" child_index (str e)) ;;
                   return_) ;;
  let audio_b64 := Base64.b64encode audio_bytes in
  yield_ (tts_event child_index current_text audio_b64) ;;
  (* STT: audio -> next text *)
  current_text <- try_ (call_transcribe asr audio_bytes "audio/wav")
                  except_Exception (fun e =>
                    yield_ (error_event "stt" child_index (str e)) ;;
                    return_) ;;
  yield_ (stt_event child_index current_text) ;;
  ret current_text.

(** [async def _run_telephone_stream(...)]: the body of the generator. *)
Definition _run_telephone_stream (num_children : Z)
    (asr_model tts_model initial_text : string) (_voice_uuid : option string)
  : M unit :=
  asr <- _get_asr asr_model ;;
  tts <- _get_tts tts_model None ;;
  let current_text := Py.strip initial_text in
  (if negb (Py.truthy current_text)
   then raise (ValueError "Initial text is empty") else ret tt) ;;
  current_text <- for_ (range num_children) (child_step tts asr) current_text ;;
  yield_ (done_event current_text).

Definition sse_headers : list (string * string) :=
  [("Cache-Control", "no-cache"); ("Connection", "keep-alive");
   ("X-Accel-Buffering", "no")].

(** [POST /api/game/start] (multipart form). The form fields are taken as
    FastAPI hands them over: [num_children] is any [int]. *)
Definition start_game_stream (num_children : Z) (asr_model tts_model : string)
    (text : option string) (audio : option UploadFile) : M StreamingResponse :=
  (* initial_text = (text or "").strip() or None *)
  let stripped := Py.strip (Py.opt_or text "") in
  let initial_text := if Py.truthy stripped then Some stripped else None in
  (if negb (bool_decide (is_Some initial_text)) && negb (bool_decide (is_Some audio))
   then raise (HTTPException 400 "Provide either 'text' or 'audio' file.")
   else ret tt) ;;
  (if bool_decide (is_Some initial_text) && bool_decide (is_Some audio)
   then raise (HTTPException 400 "Provide either 'text' or 'audio', not both.")
   else ret tt) ;;
  initial_text <-
    match audio with
    | Some upload =>
        let contents := uf_contents upload in
        asr <- _get_asr asr_model ;;
        initial_text <-
          try_ (call_transcribe asr contents
                  (Py.opt_or (uf_content_type upload) "audio/wav"))
          except_Exception (fun e =>
            raise (HTTPException 400 ("ASR failed: " +:+ str e))) ;;
        (if negb (Py.truthy initial_text)
         then raise (HTTPException 400 "No speech detected in audio.")
         else ret tt) ;;
        ret initial_text
    | None =>
        (* without audio the first check has passed: initial_text is a str *)
        ret (default "" initial_text)
    end ;;
  ret {| body_iterator :=
           _run_telephone_stream num_children asr_model tts_model initial_text None;
         media_type := "text/event-stream";
         headers := sse_headers |}.

(** [POST /api/game/start/json] on a validated body. *)
Definition start_game_stream_json (params : GameParams) : M StreamingResponse :=
  let initial_text := Py.strip (Py.opt_or (gp_text params) "") in
  (if negb (Py.truthy initial_text)
   then raise (HTTPException 400 "Provide 'text' in body.") else ret tt) ;;
  ret {| body_iterator :=
           _run_telephone_stream (gp_num_children params) (gp_asr_model params)
             (gp_tts_model params) initial_text None;
         media_type := "text/event-stream";
         headers := sse_headers |}.

(** The JSON route: FastAPI validates the body against [GameParams] and
    answers 422 without calling the endpoint when a constraint fails. *)
Definition route_start_json (body : GameParams) : M StreamingResponse :=
  if GameParams_valid body then start_game_stream_json body
  else raise (Exc "RequestValidationError" true "num_children").

(** Serving a request: the endpoint runs, then the server iterates the
    generator of the response to its end. *)
Definition serve (endpoint : M StreamingResponse) : M unit :=
  response <- endpoint ;;
  body_iterator response.

End Backend.

(** ** Observations on a trace *)

(** The events of a run: the dictionaries yielded, in order. *)
Fixpoint events (tr : list Action) : list Dict :=
  match tr with
  | [] => []
  | Yield d :: tr' => d :: events tr'
  | _ :: tr' => events tr'
  end.

(** The frames of a run as the server sends them. *)
Definition frames (tr : list Action) : list string := map _sse_message (events tr).

(** The calls of [synthesize] and [transcribe] of a run, in order. *)
Fixpoint backend_calls (tr : list Action) : list Action :=
  match tr with
  | [] => []
  | Synthesize t r :: tr' => Synthesize t r :: backend_calls tr'
  | Transcribe a c r :: tr' => Transcribe a c r :: backend_calls tr'
  | _ :: tr' => backend_calls tr'
  end.

(** A call or an instantiation that did not raise; a [Yield] never raises. *)
Definition action_ok (a : Action) : bool :=
  match a with
  | Instantiate _ _ ok => ok
  | Synthesize _ r => is_Ok r
  | Transcribe _ _ r => is_Ok r
  | Yield _ => true
  end.

Definition event_type (d : Dict) : option JVal := dict_get d "type".

Definition is_error (d : Dict) : bool :=
  match event_type d with
  | Some (JStr t) => String.eqb t "error"
  | _ => false
  end.

Definition is_done (d : Dict) : bool :=
  match event_type d with
  | Some (JStr t) => String.eqb t "done"
  | _ => false
  end.

(** The terminal events: [error] and [done]. *)
Definition is_terminal (d : Dict) : bool := is_error d || is_done d.

(** The text of the last [stt] event of a stream, if there is one. *)
Definition stt_text (d : Dict) : option string :=
  match event_type d, dict_get d "text" with
  | Some (JStr t), Some (JStr text) => if String.eqb t "stt" then Some text else None
  | _, _ => None
  end.

Fixpoint last_stt_text (evs : list Dict) : option string :=
  match evs with
  | [] => None
  | d :: evs' =>
      match last_stt_text evs' with
      | Some t => Some t
      | None => stt_text d
      end
  end.

(** The number of terminal events of a stream. *)
Definition terminal_count (evs : list Dict) : nat :=
  length (List.filter is_terminal evs).

(** The number of events that precede the first [error] event. *)
Fixpoint events_before_error (evs : list Dict) : option nat :=
  match evs with
  | [] => None
  | d :: evs' => if is_error d then Some 0%nat else S <$> events_before_error evs'
  end.

(** Every terminal event of [evs] is its last event. *)
Definition terminal_is_last (evs : list Dict) : Prop :=
  forall i d, evs !! i = Some d -> is_terminal d = true -> S i = length evs.

(** A failure that [except Exception] does not catch. *)
Definition action_caught (a : Action) : bool :=
  match a with
  | Synthesize _ (Err e) => isinstance_Exception e
  | Transcribe _ _ (Err e) => isinstance_Exception e
  | _ => true
  end.

(** ** Scripted models, to run the backend on concrete requests *)

Module Demo.

(** The bytes every scripted synthesis returns: the four bytes "RIFF". *)
Definition fixed_audio : list byte := [x52; x49; x46; x46]%byte.

(** The world counts the calls of [synthesize] and [transcribe] made so
    far; [speak] and [hear] give the result of a call from that count. *)
Definition scripted (whisper_loads : bool)
    (speak : nat -> string -> Res (list byte))
    (hear : nat -> list byte -> Res string) : Models :=
  {| World := nat;
     LocalWhisperASRAdapter := fun w =>
       (if whisper_loads
        then Ok {| transcribe := fun audio _ n => (hear n audio, S n) |}
        else Err (Exc "RuntimeError" true "model not found"), w);
     ChatterboxTTSAdapter := fun w =>
       (Ok {| synthesize := fun text n => (speak n text, S n) |}, w);
     ChatterboxTurboTTSAdapter := fun w =>
       (Ok {| synthesize := fun text n => (speak n text, S n) |}, w) |}.

(** Every call succeeds; the recognition returns the text unchanged. *)
Definition echo : Models :=
  scripted true (fun _ _ => Ok fixed_audio) (fun _ _ => Ok "hello world").

(** The call number [n] (from 0, synthesis and recognition alternate)
    raises [e]; the others succeed. *)
Definition failing_at (n : nat) (e : PyExc) : Models :=
  scripted true
    (fun k _ => if Nat.eqb k n then Err e else Ok fixed_audio)
    (fun k _ => if Nat.eqb k n then Err e else Ok "hello world").

(** Whisper cannot be loaded. *)
Definition no_whisper : Models :=
  scripted false (fun _ _ => Ok fixed_audio) (fun _ _ => Ok "hello world").

Definition RuntimeError : PyExc := Exc "RuntimeError" true "CUDA out of memory".
Definition KeyboardInterrupt : PyExc := Exc "KeyboardInterrupt" false "".

(** Runs from the world in which no call was made yet, on the text
    "hello world" with the models "whisper" and "chatterbox". *)
Definition run_echo (N : Z) : @Out echo unit :=
  @_run_telephone_stream echo N "whisper" "chatterbox" "hello world" None 0%nat.

Definition run_failing_at (n : nat) (e : PyExc) (N : Z)
  : @Out (failing_at n e) unit :=
  @_run_telephone_stream (failing_at n e) N "whisper" "chatterbox"
    "hello world" None 0%nat.

(** The same request with a synthesis key that is in no registry. *)
Definition run_unknown_tts : @Out echo unit :=
  @_run_telephone_stream echo 3 "whisper" "nonexistent-model" "hello world"
    None 0%nat.

(** The multipart request with [num_children = 0] and the text "hi". *)
Definition serve_zero_children : @Out echo unit :=
  @serve echo (@start_game_stream echo 0 "whisper" "chatterbox" (Some "hi") None)
    0%nat.

(** The same parameters as a JSON body. *)
Definition zero_children_body : GameParams :=
  {| gp_num_children := 0; gp_asr_model := "whisper";
     gp_tts_model := "chatterbox"; gp_text := Some "hi" |}.

End Demo.

(** ** The shapes of the trace of the loop

    [chain k n text tr o]: from child [k], with [n] children left and
    [text] to pass on, the loop leaves the trace [tr] and ends as [o]. *)
Inductive chain : Z -> nat -> string -> list Action -> Outcome string -> Prop :=
  | chain_end k text :
      chain k 0 text [] (Normal text)
  | chain_step k n text audio text' tr o :
      chain (k + 1) n text' tr o ->
      chain k (S n) text
        (Synthesize text (Ok audio)
         :: Yield (tts_event k text (Base64.b64encode audio))
         :: Transcribe audio "audio/wav" (Ok text')
         :: Yield (stt_event k text') :: tr) o
  | chain_tts_error k n text e :
      isinstance_Exception e = true ->
      chain k (S n) text
        [Synthesize text (Err e); Yield (error_event "tts" k (str e))] Returned
  | chain_tts_raise k n text e :
      isinstance_Exception e = false ->
      chain k (S n) text [Synthesize text (Err e)] (Raised e)
  | chain_stt_error k n text audio e :
      isinstance_Exception e = true ->
      chain k (S n) text
        [Synthesize text (Ok audio);
         Yield (tts_event k text (Base64.b64encode audio));
         Transcribe audio "audio/wav" (Err e);
         Yield (error_event "stt" k (str e))] Returned
  | chain_stt_raise k n text audio e :
      isinstance_Exception e = false ->
      chain k (S n) text
        [Synthesize text (Ok audio);
         Yield (tts_event k text (Base64.b64encode audio));
         Transcribe audio "audio/wav" (Err e)] (Raised e).

(** What follows the loop: the [done] event when the loop ends normally. *)
Definition after_loop (o : Outcome string) : list Action :=
  match o with
  | Normal current_text => [Yield (done_event current_text)]
  | _ => []
  end.

Definition after_outcome (o : Outcome string) : Outcome unit :=
  match o with
  | Normal _ => Normal tt
  | Raised e => Raised e
  | Returned => Returned
  end.

(** Both adapters of a request are found and instantiated in [w]. *)
Definition resolved `{Models} (asr_model tts_model : string) (w : World) : Prop :=
  exists asr tts,
    outcome (_get_asr asr_model w) = Normal asr /\
    outcome (_get_tts tts_model None (world (_get_asr asr_model w))) = Normal tts.

(** The shapes of the trace of a whole run of [_run_telephone_stream] from
    the world [w]: the five ways it raises before the loop, and the loop. *)
Inductive stream_run `{Models} (num_children : Z)
    (asr_model tts_model initial_text : string) (w : World)
  : list Action -> Outcome unit -> Prop :=
  | run_unknown_asr :
      ASR_MODELS !! asr_model = None ->
      stream_run num_children asr_model tts_model initial_text w
        [] (Raised (HTTPException 400 ("Unknown ASR model: " +:+ asr_model)))
  | run_asr_not_loaded e :
      is_Some (ASR_MODELS !! asr_model) ->
      outcome (_get_asr asr_model w) = Raised e ->
      stream_run num_children asr_model tts_model initial_text w
        [Instantiate "ASR_MODELS" asr_model false] (Raised e)
  | run_unknown_tts asr :
      outcome (_get_asr asr_model w) = Normal asr ->
      TTS_MODELS !! tts_model = None ->
      stream_run num_children asr_model tts_model initial_text w
        [Instantiate "ASR_MODELS" asr_model true]
        (Raised (HTTPException 400 ("Unknown TTS model: " +:+ tts_model)))
  | run_tts_not_loaded asr e :
      outcome (_get_asr asr_model w) = Normal asr ->
      is_Some (TTS_MODELS !! tts_model) ->
      outcome (_get_tts tts_model None (world (_get_asr asr_model w))) = Raised e ->
      stream_run num_children asr_model tts_model initial_text w
        [Instantiate "ASR_MODELS" asr_model true;
         Instantiate "TTS_MODELS" tts_model false] (Raised e)
  | run_empty_text :
      resolved asr_model tts_model w ->
      Py.strip initial_text = EmptyString ->
      stream_run num_children asr_model tts_model initial_text w
        [Instantiate "ASR_MODELS" asr_model true;
         Instantiate "TTS_MODELS" tts_model true]
        (Raised (ValueError "Initial text is empty"))
  | run_chain tr o :
      resolved asr_model tts_model w ->
      Py.truthy (Py.strip initial_text) = true ->
      chain 0 (Z.to_nat num_children) (Py.strip initial_text) tr o ->
      stream_run num_children asr_model tts_model initial_text w
        (Instantiate "ASR_MODELS" asr_model true
         :: Instantiate "TTS_MODELS" tts_model true :: tr ++ after_loop o)
        (after_outcome o).

(** ** The adapters of [services/asr.py] and [services/tts.py] *)

Module Str.

(** [s.startswith(p)] *)
Fixpoint startswith (s p : string) : bool :=
  match p, s with
  | EmptyString, _ => true
  | String a p', String b s' => Ascii.eqb a b && startswith s' p'
  | String _ _, EmptyString => false
  end.

(** [sub in s] on strings. *)
Fixpoint contains (sub s : string) : bool :=
  startswith s sub ||
  match s with
  | EmptyString => false
  | String _ s' => contains sub s'
  end.

(** A character of [' '..'~']. *)
Definition printable (c : ascii) : bool :=
  ((32 <=? N_of_ascii c) && (N_of_ascii c <=? 126))%N.

Fixpoint all_printable (s : string) : bool :=
  match s with
  | EmptyString => true
  | String c s' => printable c && all_printable s'
  end.

End Str.

(** The calls into the model libraries, as the adapters make them. *)
Inductive LibCall : Type :=
  | WhisperLoad (model_name : string)
  | WhisperTranscribe (path : string) (contents : option (list byte))
  | FromPretrained (device : string)
  | Generate (text : string) (audio_prompt_path : option string)
  | TorchaudioSave (sample_rate : Z).

(** The libraries the adapters call: [whisper], [chatterbox.tts], [torch],
    [torchaudio] and [tempfile]. Their state [Ext] (weights, devices, random
    generators) is theirs; a model reads the file it is given and touches no
    other file. [ChatterboxTurboTTSAdapter] is imported by [main.py] and is
    not in [services/tts.py]: it stays a parameter. *)
Class Libraries : Type := {
  Ext : Type;
  WhisperModel : Type;
  ChatterboxTTS : Type;
  Tensor : Type;
  (** [whisper.load_model(name)] *)
  whisper_load_model : string -> Ext -> Res WhisperModel * Ext;
  (** [model.transcribe(path, fp16=False)], of which [result.get("text")]
      is kept; the model is given what the file holds *)
  whisper_transcribe :
    WhisperModel -> string -> option (list byte) -> Ext -> Res (option string) * Ext;
  (** [from chatterbox.tts import ChatterboxTTS] and
      [ChatterboxTTS.from_pretrained(device=device)] *)
  from_pretrained : string -> Ext -> Res ChatterboxTTS * Ext;
  (** [model.generate(text, **kwargs)] with or without [audio_prompt_path] *)
  generate : ChatterboxTTS -> string -> option string -> Ext -> Res Tensor * Ext;
  (** [model.sr] *)
  sr : ChatterboxTTS -> Z;
  (** [torchaudio.save(buf, wav.cpu(), sr, format="wav")] then [buf.read()] *)
  torchaudio_save : Tensor -> Z -> Ext -> Res (list byte) * Ext;
  cuda_is_available : Ext -> bool;
  has_mps : Ext -> bool;
  mps_is_available : Ext -> bool;
  (** the name [tempfile.NamedTemporaryFile(suffix=suffix)] picks *)
  mkstemp : gmap string (list byte) -> string -> string;
}.

(** The fields of a [ChatterboxTTSAdapter] object. *)
Record Chatterbox `{Libraries} : Type := {
  _device : string;
  _audio_prompt_path : option string;
  _model : option ChatterboxTTS;
}.

(** The world of the adapters: the libraries' state, the regular files, the
    environment variables, the [ChatterboxTTSAdapter] objects by address,
    and the library calls made so far. *)
Record SWorld `{Libraries} : Type := {
  ext : Ext;
  fs : gmap string (list byte);
  environ : gmap string string;
  heap : gmap nat Chatterbox;
  calls : list LibCall;
}.

Section Services.
Context `{Libraries}.

Definition SM (A : Type) : Type := SWorld -> Res A * SWorld.

Definition sret {A} (a : A) : SM A := fun w => (Ok a, w).

Definition sraise {A} (e : PyExc) : SM A := fun w => (Err e, w).

Definition sbind {A B} (m : SM A) (f : A -> SM B) : SM B :=
  fun w =>
    match m w with
    | (Ok a, w') => f a w'
    | (Err e, w') => (Err e, w')
    end.

(** [try: m  finally: cleanup] *)
Definition finally {A} (m : SM A) (cleanup : SM unit) : SM A :=
  fun w =>
    match m w with
    | (r, w') =>
        match cleanup w' with
        | (Ok _, w'') => (r, w'')
        | (Err e, w'') => (Err e, w'')
        end
    end.

(** A call into a library: its state moves on and the call is recorded. *)
Definition lib {A} (f : Ext -> Res A * Ext) (c : LibCall) : SM A :=
  fun w =>
    match f (ext w) with
    | (r, x) =>
        (r, {| ext := x; fs := fs w; environ := environ w; heap := heap w;
               calls := calls w ++ [c] |})
    end.

Definition set_fs (f : gmap string (list byte)) (w : SWorld) : SWorld :=
  {| ext := ext w; fs := f; environ := environ w; heap := heap w;
     calls := calls w |}.

Definition set_heap (h : gmap nat Chatterbox) (w : SWorld) : SWorld :=
  {| ext := ext w; fs := fs w; environ := environ w; heap := h;
     calls := calls w |}.

(** [tempfile.NamedTemporaryFile(suffix=suffix, delete=False)]: a new, empty
    file. *)
Definition NamedTemporaryFile (suffix : string) : SM string :=
  fun w =>
    let name := mkstemp (fs w) suffix in
    (Ok name, set_fs (<[name := []]> (fs w)) w).

(** [f.write(data); f.flush()] on the file [name] *)
Definition f_write (name : string) (data : list byte) : SM unit :=
  fun w =>
    (Ok tt, set_fs (<[name := default [] (fs w !! name) ++ data]> (fs w)) w).

(** [os.unlink(name)]; the file may still be open, as on POSIX systems. *)
Definition os_unlink (name : string) : SM unit :=
  fun w =>
    match fs w !! name with
    | Some _ => (Ok tt, set_fs (delete name (fs w)) w)
    | None => (Err (Exc "FileNotFoundError" true name), w)
    end.

(** [os.path.isfile(path)] *)
Definition isfile (path : string) (w : SWorld) : bool :=
  bool_decide (is_Some (fs w !! path)).

(** *** [services/asr.py] *)

(** [LocalWhisperASRAdapter.transcribe] (asr.py:31-40) on the model loaded
    by [__init__]. *)
Definition LocalWhisper_transcribe (model : WhisperModel)
    (audio_bytes : list byte) (content_type : string) : SM string :=
  let suffix := if Str.contains "wav" content_type then ".wav" else ".mp3" in
  sbind (NamedTemporaryFile suffix) (fun f_name =>
  finally
    (sbind (f_write f_name audio_bytes) (fun _ =>
     sbind (fun w => lib (whisper_transcribe model f_name (fs w !! f_name))
                       (WhisperTranscribe f_name (fs w !! f_name)) w)
       (fun result =>
     sret (Py.strip (Py.opt_or result "")))))
    (os_unlink f_name)).

(** [LocalWhisperASRAdapter(model_name)] (asr.py:27-29): the model is loaded
    when the adapter is made. *)
Definition LocalWhisperASRAdapter_init (model_name : string)
  : SM (ASRAdapter SWorld) :=
  sbind (lib (whisper_load_model model_name) (WhisperLoad model_name))
    (fun model => sret {| transcribe := LocalWhisper_transcribe model |}).

(** *** [services/tts.py] *)

(** [_get_device()] (tts.py:16-21) *)
Definition _get_device (w : SWorld) : string :=
  if cuda_is_available (ext w) then "cuda"
  else if has_mps (ext w) && mps_is_available (ext w) then "mps"
  else "cpu".

(** [self._load_model()] (tts.py:44-49) on the object at [self]. An address
    without object is not reached from [ChatterboxTTSAdapter_init], which
    allocates the object before it hands out [synthesize]. *)
Definition _load_model (self : nat) : SM ChatterboxTTS :=
  fun w =>
    match heap w !! self with
    | None => (Err (Exc "ReferenceError" true "no such object"), w)
    | Some obj =>
        match _model obj with
        | Some model => (Ok model, w)
        | None =>
            sbind (lib (from_pretrained (_device obj)) (FromPretrained (_device obj)))
              (fun model w' =>
                 (Ok model,
                  set_heap (<[self := {| _device := _device obj;
                                         _audio_prompt_path := _audio_prompt_path obj;
                                         _model := Some model |}]> (heap w')) w'))
              w
        end
    end.

(** [ChatterboxTTSAdapter.synthesize] (tts.py:51-61) on the object at
    [self]. *)
Definition Chatterbox_synthesize (self : nat) (text : string) : SM (list byte) :=
  sbind (_load_model self) (fun model w =>
    let prompt :=
      match _audio_prompt_path <$> heap w !! self with
      | Some (Some path) =>
          if Py.truthy path && isfile path w then Some path else None
      | _ => None
      end in
    sbind (lib (generate model text prompt) (Generate text prompt)) (fun wav =>
    lib (torchaudio_save wav (sr model)) (TorchaudioSave (sr model))) w).

(** [ChatterboxTTSAdapter(device, audio_prompt_path)] (tts.py:39-42): a new
    object, without a model yet. *)
Definition ChatterboxTTSAdapter_init (device audio_prompt_path : option string)
  : SM (TTSAdapter SWorld) :=
  fun w =>
    let device := if Py.truthy (Py.opt_or device "")
                  then Py.opt_or device "" else _get_device w in
    let path := if Py.truthy (Py.opt_or audio_prompt_path "")
                then audio_prompt_path
                else environ w !! "CHATTERBOX_PROMPT_PATH" in
    let self := fresh (dom (heap w)) in
    (Ok {| synthesize := Chatterbox_synthesize self |},
     set_heap (<[self := {| _device := device; _audio_prompt_path := path;
                            _model := None |}]> (heap w)) w).

(** The backend on these adapters, as the registries of [main.py] call
    them: without argument. *)
Definition services (turbo : SM (TTSAdapter SWorld)) : Models :=
  {| World := SWorld;
     LocalWhisperASRAdapter := LocalWhisperASRAdapter_init "base";
     ChatterboxTTSAdapter := ChatterboxTTSAdapter_init None None;
     ChatterboxTurboTTSAdapter := turbo |}.

(** The number of [from_pretrained] calls among library calls. *)
Fixpoint loads (cs : list LibCall) : nat :=
  match cs with
  | [] => 0
  | FromPretrained _ :: cs' => S (loads cs')
  | _ :: cs' => loads cs'
  end.

End Services.

(** The object at [self] holds a model and [c] loads were made. *)
Definition loaded `{Libraries} (self : nat) (c : nat) (w : SWorld) : Prop :=
  exists obj model,
    heap w !! self = Some obj /\ _model obj = Some model /\ loads (calls w) = c.

(** ** The listing of the models *)

Section Listing.
Context `{Models}.

(** [GET /api/models] (main.py:189-195): the keys of the two registries.
    The lists are those of a [gmap], whose order is not the order of
    insertion of a [dict]. *)
Definition list_models : list string * list string :=
  ((map_to_list ASR_MODELS).*1, (map_to_list TTS_MODELS).*1).

End Listing.

(** ** Scripted requests and libraries *)

Module DemoRequests.

(** An upload of four bytes without content type. *)
Definition clip : UploadFile :=
  {| uf_contents := Demo.fixed_audio; uf_content_type := None |}.


(** A valid JSON body. *)
Definition body : GameParams :=
  {| gp_num_children := 2; gp_asr_model := "whisper";
     gp_tts_model := "chatterbox"; gp_text := Some " hello world " |}.

End DemoRequests.

Module DemoServices.

(** Libraries that always answer: Whisper hears " hello world " in any
    file, Chatterbox speaks four bytes; [from_pretrained] finds its
    weights or not. *)
Definition libs (weights_found : bool) : Libraries :=
  {| Ext := nat;
     WhisperModel := unit;
     ChatterboxTTS := unit;
     Tensor := list byte;
     whisper_load_model := fun _ x => (Ok tt, S x);
     whisper_transcribe := fun _ _ contents x =>
       (match contents with
        | Some _ => Ok (Some " hello world ")
        | None => Err (Exc "RuntimeError" true "no such file")
        end, S x);
     from_pretrained := fun _ x =>
       (if weights_found then Ok tt
        else Err (Exc "OSError" true "weights not found"), S x);
     generate := fun _ _ _ x => (Ok Demo.fixed_audio, S x);
     sr := fun _ => 24000;
     torchaudio_save := fun wav _ x => (Ok wav, x);
     cuda_is_available := fun _ => false;
     has_mps := fun _ => false;
     mps_is_available := fun _ => false;
     mkstemp := fun _ suffix => "/tmp/tmpk3v9" +:+ suffix |}.

(** The world at start: no file, no variable, no object, no call. *)
Definition boot (weights_found : bool) : @SWorld (libs weights_found) :=
  {| ext := (0%nat : @Ext (libs weights_found)); fs := ∅; environ := ∅;
     heap := ∅; calls := [] |}.

(** The same with a [ChatterboxTTSAdapter] object at address 0, without
    model. *)
Definition with_adapter (weights_found : bool) : @SWorld (libs weights_found) :=
  {| ext := (0%nat : @Ext (libs weights_found)); fs := ∅; environ := ∅;
     heap := {[ 0%nat := {| _device := "cpu"; _audio_prompt_path := None;
                            _model := None |} ]};
     calls := [] |}.

(** The backend on these libraries. *)
Definition models (weights_found : bool) : Models :=
  @services (libs weights_found) (@ChatterboxTTSAdapter_init (libs weights_found) None None).

Definition run (weights_found : bool) (N : Z) : @Out (models weights_found) unit :=
  @_run_telephone_stream (models weights_found) N "whisper" "chatterbox"
    "hello" None (boot weights_found).

End DemoServices.

(** * Properties *)

(** ** Strings *)

Lemma lstrip_all_space s : Py.all_space s = true -> Py.lstrip s = EmptyString.
Proof.
  induction s as [|c s IH]; simpl; [done|].
  intros [Hc Hs]%andb_prop. rewrite Hc. auto.
Qed.

Lemma strip_all_space s : Py.all_space s = true -> Py.strip s = EmptyString.
Proof. intros Hs. unfold Py.strip. by rewrite lstrip_all_space. Qed.

Lemma lstrip_head s c r : Py.lstrip s = String c r -> Py.isspace c = false.
Proof.
  induction s as [|a s IH]; simpl; [done|].
  destruct (Py.isspace a) eqn:Ha; [exact IH|].
  intros [= -> _]. exact Ha.
Qed.

Lemma rstrip_head c r : Py.isspace c = false -> Py.rstrip (String c r) <> EmptyString.
Proof.
  intros Hc. simpl. rewrite Hc. by destruct (Py.rstrip r).
Qed.

Lemma lstrip_empty_all_space s : Py.lstrip s = EmptyString -> Py.all_space s = true.
Proof.
  induction s as [|a s IH]; simpl; [done|].
  destruct (Py.isspace a); [exact IH | done].
Qed.

Lemma strip_empty_iff s : Py.strip s = EmptyString <-> Py.all_space s = true.
Proof.
  split; [|apply strip_all_space].
  unfold Py.strip. destruct (Py.lstrip s) as [|c r] eqn:Hl.
  - intros _. by apply lstrip_empty_all_space.
  - intros Hr. apply lstrip_head in Hl. by apply rstrip_head in Hr.
Qed.

(** ** Base64 *)

Module Base64Facts.
Import Base64.

Lemma index_of_char_of_upto :
  forallb (fun n => match index_of (char_of n) with
                    | Some m => N.eqb m n
                    | None => false
                    end) (map N.of_nat (seq 0 64)) = true.
Proof. vm_compute. reflexivity. Qed.

Lemma index_of_char_of n : (n < 64)%N -> index_of (char_of n) = Some n.
Proof.
  intros Hn. pose proof index_of_char_of_upto as Hall.
  rewrite forallb_forall in Hall.
  specialize (Hall n). destruct (index_of (char_of n)) as [m|].
  - f_equal. apply N.eqb_eq, Hall.
    apply in_map_iff. exists (N.to_nat n). split; [lia|].
    apply in_seq. lia.
  - exfalso. enough (false = true) by done. apply Hall.
    apply in_map_iff. exists (N.to_nat n). split; [lia|].
    apply in_seq. lia.
Qed.

Lemma char_of_not_pad n : (n < 64)%N -> Ascii.eqb (char_of n) pad = false.
Proof.
  intros Hn. destruct (Ascii.eqb (char_of n) pad) eqn:E; [|done].
  apply Ascii.eqb_eq in E. pose proof (index_of_char_of n Hn) as Hi.
  rewrite E in Hi. discriminate Hi.
Qed.

Lemma of_N_to_N b n : n = Byte.to_N b -> Byte.of_N n = Some b.
Proof. intros ->. apply Byte.of_to_N. Qed.

Lemma to_N_lt b : (Byte.to_N b < 256)%N.
Proof. pose proof (Byte.to_N_bounded b). lia. Qed.

Ltac b64_arith :=
repeat match goal with
       | b : byte |- _ =>
           lazymatch goal with
           | H : (Byte.to_N b < 256)%N |- _ => fail
           | _ => pose proof (to_N_lt b)
           end
       end;
try apply of_N_to_N; zify; Z.to_euclidean_division_equations; lia.

Ltac b64_byte :=
match goal with
| |- context [Byte.of_N ?e] =>
    match goal with
    | x : byte |- _ => rewrite (of_N_to_N x e) by b64_arith
    end
end.

Ltac b64_step :=
repeat first
  [ rewrite index_of_char_of by b64_arith
  | rewrite char_of_not_pad by b64_arith
  | b64_byte
  | progress change (Ascii.eqb pad pad) with true
  | progress cbn [mbind option_bind andb negb Py.truthy] ].

Lemma b64decode_b64encode_upto n :
forall bs : list byte, (length bs <= n)%nat -> b64decode (b64encode bs) = Some bs.
Proof.
induction n as [n IH] using lt_wf_ind. intros bs Hlen.
destruct bs as [|a [|b [|c rest]]]; [done| | |];
  cbn [b64encode b64decode]; b64_step; [done..|].
rewrite (IH (length rest)) by (simpl in Hlen; lia). done.
Qed.

Lemma b64decode_b64encode bs : b64decode (b64encode bs) = Some bs.
Proof. by apply (b64decode_b64encode_upto (length bs)). Qed.

End Base64Facts.

(** ** Traces *)

Lemma events_app tr1 tr2 : events (tr1 ++ tr2) = events tr1 ++ events tr2.
Proof.
  induction tr1 as [|a tr1 IH]; [done|].
  destruct a; simpl; by rewrite ?IH.
Qed.

Lemma backend_calls_app tr1 tr2 :
  backend_calls (tr1 ++ tr2) = backend_calls tr1 ++ backend_calls tr2.
Proof.
  induction tr1 as [|a tr1 IH]; [done|].
  destruct a; simpl; by rewrite ?IH.
Qed.

Lemma backend_calls_after_loop o : backend_calls (after_loop o) = [].
Proof. by destruct o. Qed.

Lemma last_stt_text_app_done evs final_text :
  last_stt_text (evs ++ [done_event final_text]) = last_stt_text evs.
Proof.
  induction evs as [|d evs IH]; [done|].
  simpl. by rewrite IH.
Qed.

(** A loop all of whose calls succeed runs to its end: two events per
    child, in order, and the text heard last is the text passed on. *)
Lemma chain_success k n text tr o :
  chain k n text tr o ->
  forallb action_ok (backend_calls tr) = true ->
  exists final_text,
    o = Normal final_text /\
    length (events tr) = (2 * n)%nat /\
    (forall j, (j < n)%nat -> exists t a t',
        events tr !! (2 * j)%nat = Some (tts_event (k + Z.of_nat j) t a) /\
        events tr !! (2 * j + 1)%nat = Some (stt_event (k + Z.of_nat j) t')) /\
    (n = 0%nat -> final_text = text /\ tr = []) /\
    ((0 < n)%nat ->
       last_stt_text (events tr) = Some final_text /\
       exists audio,
         last (backend_calls tr) = Some (Transcribe audio "audio/wav" (Ok final_text))).
Proof.
  induction 1 as [k text | k n text audio text' tr o Hc IH | | | |];
    cbn [backend_calls forallb action_ok is_Ok andb]; intros Hok;
    try discriminate Hok.
  - exists text. split; [done|]. split; [done|].
    split; [intros j Hj; lia|]. split; [done|]. intros Hn; lia.
  - destruct (IH Hok) as (final_text & -> & Hlen & Hpt & H0 & Hpos).
    exists final_text. split; [done|].
    split; [cbn [events length]; lia|].
    split; [|split; [lia|]].
    + intros [|j] Hj.
      * exists text, (Base64.b64encode audio), text'.
        replace (k + Z.of_nat 0)%Z with k by lia. done.
      * destruct (Hpt j) as (t & a & t' & H1 & H2); [lia|].
        exists t, a, t'.
        replace (k + Z.of_nat (S j))%Z with (k + 1 + Z.of_nat j)%Z by lia.
        replace (2 * S j)%nat with (S (S (2 * j))) by lia.
        cbn [events]. done.
    + intros _. cbn [events last_stt_text].
      destruct n as [|n].
      * destruct H0 as [-> ->]; [done|]. cbn. eauto.
      * destruct Hpos as (Hl & audio' & Hb); [lia|].
        rewrite Hl. split; [done|]. exists audio'.
        destruct (backend_calls tr) as [|c cs]; [done|].
        by rewrite !last_cons_cons.
Qed.

(** ** Terminal events *)

Lemma terminal_count_done final_text : terminal_count [done_event final_text] = 1%nat.
Proof. reflexivity. Qed.

Lemma terminal_count_error step j msg : terminal_count [error_event step j msg] = 1%nat.
Proof. reflexivity. Qed.

Lemma terminal_count_app evs1 evs2 :
  terminal_count (evs1 ++ evs2) = (terminal_count evs1 + terminal_count evs2)%nat.
Proof. unfold terminal_count. by rewrite List.filter_app, length_app. Qed.

Lemma terminal_count_none evs :
  Forall (fun d => is_terminal d = false) evs -> terminal_count evs = 0%nat.
Proof.
  unfold terminal_count. induction 1 as [|d evs Hd _ IH]; [done|].
  simpl. by rewrite Hd.
Qed.

Lemma terminal_is_last_none evs :
  Forall (fun d => is_terminal d = false) evs -> terminal_is_last evs.
Proof.
  intros Hall i d Hi Hd. rewrite Forall_lookup in Hall.
  specialize (Hall i d Hi). simpl in Hall. congruence.
Qed.

Lemma terminal_is_last_snoc evs d :
  Forall (fun d => is_terminal d = false) evs -> terminal_is_last (evs ++ [d]).
Proof.
  intros Hall i d' Hi Hd'. rewrite length_app. simpl.
  destruct (decide (i < length evs)%nat) as [Hlt|Hge].
  - rewrite lookup_app_l in Hi by done. rewrite Forall_lookup in Hall.
    specialize (Hall i d' Hi). simpl in Hall. congruence.
  - apply lookup_lt_Some in Hi. rewrite length_app in Hi. simpl in Hi. lia.
Qed.

(** The events of the loop are not terminal, but for the [error] event on
    which it returns. *)
Lemma chain_terminal k n text tr o :
  chain k n text tr o ->
  exists pre,
    Forall (fun d => is_terminal d = false) pre /\
    match o with
    | Returned =>
        exists step j e, events tr = pre ++ [error_event step j (str e)]
    | _ => events tr = pre
    end.
Proof.
  induction 1 as [k text | k n text audio text' tr o Hc IH
                 | k n text e He | k n text e He
                 | k n text audio e He | k n text audio e He].
  - by exists [].
  - destruct IH as (pre & Hpre & Hev).
    exists (tts_event k text (Base64.b64encode audio) :: stt_event k text' :: pre).
    split; [by repeat constructor|].
    cbn [events]. destruct o as [t|e|].
    + by rewrite Hev.
    + by rewrite Hev.
    + destruct Hev as (step & j & e & ->). by exists step, j, e.
  - exists []. split; [done|]. by exists "tts", k, e.
  - by exists [].
  - exists [tts_event k text (Base64.b64encode audio)].
    split; [by repeat constructor|]. by exists "stt", k, e.
  - exists [tts_event k text (Base64.b64encode audio)].
    split; [by repeat constructor|]. done.
Qed.

Lemma events_before_error_snoc pre d :
  Forall (fun d => is_terminal d = false) pre ->
  is_error d = true ->
  events_before_error (pre ++ [d]) = Some (length pre).
Proof.
  intros Hpre Hd. induction Hpre as [|d' pre Hd' _ IH]; simpl.
  - by rewrite Hd.
  - unfold is_terminal in Hd'. apply orb_false_elim in Hd' as [-> _].
    by rewrite IH.
Qed.


(** A loop whose failures are all instances of [Exception] does not raise. *)
Lemma chain_caught k n text tr o :
  chain k n text tr o ->
  forallb action_caught (backend_calls tr) = true ->
  forall e, o <> Raised e.
Proof.
  induction 1 as [k text | k n text audio text' tr o Hc IH
                 | k n text e0 He | k n text e0 He
                 | k n text audio e0 He | k n text audio e0 He];
    cbn [backend_calls forallb action_caught andb]; intros Hok e; try done.
  - by apply IH.
  - rewrite He in Hok. done.
  - rewrite He in Hok. done.
Qed.

(** The events of the loop and of what follows it: events that are not
    terminal, then a [done] event, an [error] event or nothing, as the loop
    ends. *)
Lemma chain_stream k n text tr o :
  chain k n text tr o ->
  exists pre,
    Forall (fun d => is_terminal d = false) pre /\
    match o with
    | Normal final_text =>
        events (tr ++ after_loop o) = pre ++ [done_event final_text]
    | Raised _ => events (tr ++ after_loop o) = pre
    | Returned =>
        exists step j e,
          events (tr ++ after_loop o) = pre ++ [error_event step j (str e)]
    end.
Proof.
  intros Hc. destruct (chain_terminal _ _ _ _ _ Hc) as (pre & Hpre & Hev).
  exists pre. split; [done|]. rewrite events_app.
  destruct o as [t|e|]; cbn [after_loop events].
  - by rewrite Hev.
  - by rewrite Hev, app_nil_r.
  - destruct Hev as (step & j & e & ->). exists step, j, e. by rewrite app_nil_r.
Qed.

(** What follows a failing call in the loop: after [2 * j] successful calls
    a synthesis fails, after [2 * j + 1] a recognition, both at step [j];
    a failure that is an instance of [Exception] is followed by the [error]
    event of that step and stage and nothing else, another one by nothing. *)
Lemma chain_failure k n text tr o :
  chain k n text tr o ->
  forall i a e,
  (tr ++ after_loop o) !! i = Some a ->
  (exists t, a = Synthesize t (Err e)) \/ (exists b c, a = Transcribe b c (Err e)) ->
  exists (j : nat) step,
    (j < n)%nat /\
    (forall t, a = Synthesize t (Err e) ->
       step = "tts" /\
       length (backend_calls (take i (tr ++ after_loop o))) = (2 * j)%nat) /\
    (forall b c, a = Transcribe b c (Err e) ->
       step = "stt" /\
       length (backend_calls (take i (tr ++ after_loop o))) = (2 * j + 1)%nat) /\
    if isinstance_Exception e
    then drop (S i) (tr ++ after_loop o)
           = [Yield (error_event step (k + Z.of_nat j) (str e))]
         /\ o = Returned
    else drop (S i) (tr ++ after_loop o) = [] /\ o = Raised e.
Proof.
  induction 1 as [k text | k n text audio text' tr o Hc IH
                 | k n text e0 He | k n text e0 He
                 | k n text audio e0 He | k n text audio e0 He];
    intros i a e Hi Ha.
  - destruct i as [|i]; cbn in Hi; simplify_eq.
    destruct Ha as [[t Ha]|(b & c & Ha)]; discriminate Ha.
  - destruct i as [|[|[|[|i]]]]; cbn in Hi; simplify_eq;
      try (destruct Ha as [[t Ha]|(b & c & Ha)]; discriminate Ha).
    destruct (IH i a e Hi Ha) as (j & step & Hj & Hs & Ht & Hd).
    exists (S j), step.
    replace (k + Z.of_nat (S j))%Z with (k + 1 + Z.of_nat j)%Z by lia.
    split; [lia|]. cbn [app take drop backend_calls length].
    split; [|split; [|done]].
    + intros t Heq. destruct (Hs t Heq) as [-> ->]. split; [done|lia].
    + intros b c Heq. destruct (Ht b c Heq) as [-> ->]. split; [done|lia].
  - destruct i as [|[|i]]; cbn in Hi; simplify_eq;
      destruct Ha as [[t Ha]|(b & c & Ha)]; simplify_eq.
    exists 0%nat, "tts". rewrite Z.add_0_r, He.
    split; [lia|]. split; [done|]. split; [intros ? ? [=]|done].
  - destruct i as [|i]; cbn in Hi; simplify_eq;
      destruct Ha as [[t Ha]|(b & c & Ha)]; simplify_eq.
    exists 0%nat, "tts". rewrite He.
    split; [lia|]. split; [done|]. split; [intros ? ? [=]|done].
  - destruct i as [|[|[|[|i]]]]; cbn in Hi; simplify_eq;
      destruct Ha as [[t Ha]|(b & c & Ha)]; simplify_eq.
    exists 0%nat, "stt". rewrite Z.add_0_r, He.
    split; [lia|]. split; [intros ? [=]|]. split; [done|done].
  - destruct i as [|[|[|i]]]; cbn in Hi; simplify_eq;
      destruct Ha as [[t Ha]|(b & c & Ha)]; simplify_eq.
    exists 0%nat, "stt". rewrite He.
    split; [lia|]. split; [intros ? [=]|]. split; [done|done].
Qed.

(** In the loop, a synthesis that succeeds is followed at once by the
    [tts] event that carries the base64 text of its bytes, and a [tts]
    event comes from nothing else. *)
Lemma chain_audio k n text tr o :
  chain k n text tr o ->
  forall i,
  (forall t b, (tr ++ after_loop o) !! i = Some (Synthesize t (Ok b)) ->
     exists j : nat,
       (tr ++ after_loop o) !! S i
         = Some (Yield (tts_event (k + Z.of_nat j) t (Base64.b64encode b)))) /\
  (forall d, (tr ++ after_loop o) !! S i = Some (Yield d) ->
     event_type d = Some (JStr "tts") ->
     exists (j : nat) t b,
       (tr ++ after_loop o) !! i = Some (Synthesize t (Ok b)) /\
       d = tts_event (k + Z.of_nat j) t (Base64.b64encode b)).
Proof.
  induction 1 as [k text | k n text audio text' tr o Hc IH
                 | k n text e0 He | k n text e0 He
                 | k n text audio e0 He | k n text audio e0 He];
    intros i.
  - split; [intros t b Hi|intros d Hi Hd]; destruct i as [|i]; cbn in Hi;
      simplify_eq.
  - destruct i as [|[|[|[|i]]]].
    + split; [intros t b Hi|intros d Hi Hd]; cbn in Hi; simplify_eq.
      * exists 0%nat. by rewrite Z.add_0_r.
      * exists 0%nat, text, audio. by rewrite Z.add_0_r.
    + split; [intros t b Hi|intros d Hi Hd]; cbn in Hi; simplify_eq.
    + split; [intros t b Hi|intros d Hi Hd]; cbn in Hi; simplify_eq.
    + split; [intros t b Hi|intros d Hi Hd]; cbn in Hi; simplify_eq.
      destruct Hc; cbn in Hi; simplify_eq.
    + destruct (IH i) as [IH1 IH2].
      split; [intros t b Hi|intros d Hi Hd]; cbn in Hi.
      * destruct (IH1 t b Hi) as [j Hj]. exists (S j).
        replace (k + Z.of_nat (S j))%Z with (k + 1 + Z.of_nat j)%Z by lia.
        exact Hj.
      * destruct (IH2 d Hi Hd) as (j & t & b & Hj & ->). exists (S j), t, b.
        replace (k + Z.of_nat (S j))%Z with (k + 1 + Z.of_nat j)%Z by lia.
        done.
  - split; [intros t b Hi|intros d Hi Hd]; destruct i as [|[|i]]; cbn in Hi;
      simplify_eq.
  - split; [intros t b Hi|intros d Hi Hd]; destruct i as [|i]; cbn in Hi;
      simplify_eq.
  - split; [intros t b Hi|intros d Hi Hd]; destruct i as [|[|[|[|i]]]];
      cbn in Hi; simplify_eq.
    + exists 0%nat. by rewrite Z.add_0_r.
    + exists 0%nat, text, audio. by rewrite Z.add_0_r.
  - split; [intros t b Hi|intros d Hi Hd]; destruct i as [|[|[|i]]];
      cbn in Hi; simplify_eq.
    + exists 0%nat. by rewrite Z.add_0_r.
    + exists 0%nat, text, audio. by rewrite Z.add_0_r.
Qed.

(** ** The loop *)

Section Facts.
Context `{Models}.

(** One turn of the loop, by the results of its two calls. *)
Lemma child_step_eq tts asr k text w :
  child_step tts asr k text w =
  match synthesize tts text w with
  | (Ok audio, w1) =>
      match transcribe asr audio "audio/wav" w1 with
      | (Ok text', w2) =>
          mkOut [Synthesize text (Ok audio);
                 Yield (tts_event k text (Base64.b64encode audio));
                 Transcribe audio "audio/wav" (Ok text');
                 Yield (stt_event k text')] (Normal text') w2
      | (Err e, w2) =>
          if isinstance_Exception e
          then mkOut [Synthesize text (Ok audio);
                      Yield (tts_event k text (Base64.b64encode audio));
                      Transcribe audio "audio/wav" (Err e);
                      Yield (error_event "stt" k (str e))] Returned w2
          else mkOut [Synthesize text (Ok audio);
                      Yield (tts_event k text (Base64.b64encode audio));
                      Transcribe audio "audio/wav" (Err e)] (Raised e) w2
      end
  | (Err e, w1) =>
      if isinstance_Exception e
      then mkOut [Synthesize text (Err e);
                  Yield (error_event "tts" k (str e))] Returned w1
      else mkOut [Synthesize text (Err e)] (Raised e) w1
  end.
Proof.
  unfold child_step, bind, try_except_Exception, call_synthesize,
    call_transcribe, call, yield_, return_, ret.
  destruct (synthesize tts text w) as [[audio|e] w1].
  - destruct (transcribe asr audio "audio/wav" w1) as [[text'|e] w2];
      [reflexivity|]. by destruct (isinstance_Exception e).
  - by destruct (isinstance_Exception e).
Qed.

(** The loop of [_run_telephone_stream] leaves a trace of one of the
    shapes of [chain], whatever the adapters do. *)
Lemma for_chain tts asr n : forall s text w,
  let r := for_ (map Z.of_nat (seq s n)) (child_step tts asr) text w in
  chain (Z.of_nat s) n text (trace r) (outcome r).
Proof.
  induction n as [|n IH]; intros s text w; cbn zeta.
  - apply chain_end.
  - cbn [seq map for_].
    specialize (IH (S s)). cbn zeta in IH.
    replace (Z.of_nat (S s)) with (Z.of_nat s + 1)%Z in IH by lia.
    unfold bind. rewrite child_step_eq.
    destruct (synthesize tts text w) as [[audio|e] w1].
    + destruct (transcribe asr audio "audio/wav" w1) as [[text'|e] w2].
      * specialize (IH text' w2).
        destruct (for_ (map Z.of_nat (seq (S s) n)) (child_step tts asr) text' w2)
          as [tr o w3].
        cbn [trace outcome world app] in IH |- *.
        by apply chain_step.
      * destruct (isinstance_Exception e) eqn:He; cbn [trace outcome world app].
        -- by apply chain_stt_error.
        -- by apply chain_stt_raise.
    + destruct (isinstance_Exception e) eqn:He; cbn [trace outcome world app].
      * by apply chain_tts_error.
      * by apply chain_tts_raise.
Qed.

Lemma truthy_false s : Py.truthy s = false -> s = EmptyString.
Proof. by destruct s. Qed.

(** [bind] by the outcome of its first part. *)
Lemma bind_normal {A B} (m : M A) (f : A -> M B) w tr a w1 :
  m w = mkOut tr (Normal a) w1 ->
  bind m f w
  = mkOut (tr ++ trace (f a w1)) (outcome (f a w1)) (world (f a w1)).
Proof. intros Hm. unfold bind. rewrite Hm. by destruct (f a w1). Qed.

Lemma bind_raised {A B} (m : M A) (f : A -> M B) w tr e w1 :
  m w = mkOut tr (Raised e) w1 -> bind m f w = mkOut tr (Raised e) w1.
Proof. intros Hm. unfold bind. by rewrite Hm. Qed.

Lemma bind_returned {A B} (m : M A) (f : A -> M B) w tr w1 :
  m w = mkOut tr Returned w1 -> bind m f w = mkOut tr Returned w1.
Proof. intros Hm. unfold bind. by rewrite Hm. Qed.

Lemma get_asr_unknown asr_model w :
  ASR_MODELS !! asr_model = None ->
  _get_asr asr_model w
  = mkOut [] (Raised (HTTPException 400 ("Unknown ASR model: " +:+ asr_model))) w.
Proof. intros Hk. unfold _get_asr. by rewrite Hk. Qed.

Lemma get_tts_unknown tts_model voice w :
  TTS_MODELS !! tts_model = None ->
  _get_tts tts_model voice w
  = mkOut [] (Raised (HTTPException 400 ("Unknown TTS model: " +:+ tts_model))) w.
Proof. intros Hk. unfold _get_tts. by rewrite Hk. Qed.

Lemma get_asr_known asr_model cls w :
  ASR_MODELS !! asr_model = Some cls ->
  _get_asr asr_model w =
  match cls w with
  | (Ok asr, w1) => mkOut [Instantiate "ASR_MODELS" asr_model true] (Normal asr) w1
  | (Err e, w1) => mkOut [Instantiate "ASR_MODELS" asr_model false] (Raised e) w1
  end.
Proof.
  intros Hk. unfold _get_asr, call. rewrite Hk. by destruct (cls w) as [[asr|e] w1].
Qed.

Lemma get_tts_known tts_model voice cls w :
  TTS_MODELS !! tts_model = Some cls ->
  _get_tts tts_model voice w =
  match cls w with
  | (Ok tts, w1) => mkOut [Instantiate "TTS_MODELS" tts_model true] (Normal tts) w1
  | (Err e, w1) => mkOut [Instantiate "TTS_MODELS" tts_model false] (Raised e) w1
  end.
Proof.
  intros Hk. unfold _get_tts, call. rewrite Hk. by destruct (cls w) as [[tts|e] w1].
Qed.

(** Every run of the generator has one of the shapes of [stream_run]. *)
Lemma run_shape num_children asr_model tts_model initial_text voice w :
  let r := _run_telephone_stream num_children asr_model tts_model
             initial_text voice w in
  stream_run num_children asr_model tts_model initial_text w
    (trace r) (outcome r).
Proof.
  cbn zeta. unfold _run_telephone_stream.
  destruct (ASR_MODELS !! asr_model) as [asr_cls|] eqn:Hasr.
  2:{ rewrite (bind_raised _ _ _ _ _ _ (get_asr_unknown _ w Hasr)).
      by apply run_unknown_asr. }
  pose proof (get_asr_known _ _ w Hasr) as Hget.
  destruct (asr_cls w) as [[asr|e] w1].
  2:{ rewrite (bind_raised _ _ _ _ _ _ Hget).
      apply run_asr_not_loaded; [done|]. by rewrite Hget. }
  rewrite (bind_normal _ _ _ _ _ _ Hget).
  destruct (TTS_MODELS !! tts_model) as [tts_cls|] eqn:Htts.
  2:{ rewrite (bind_raised _ _ _ _ _ _ (get_tts_unknown _ None w1 Htts)).
      cbn [trace outcome world app].
      apply (run_unknown_tts _ _ _ _ _ asr); [by rewrite Hget | done]. }
  pose proof (get_tts_known _ None _ w1 Htts) as Hget'.
  destruct (tts_cls w1) as [[tts|e] w2].
  2:{ rewrite (bind_raised _ _ _ _ _ _ Hget').
      cbn [trace outcome world app].
      apply (run_tts_not_loaded _ _ _ _ _ asr); [by rewrite Hget|done|].
      rewrite Hget. cbn [world]. by rewrite Hget'. }
  assert (resolved asr_model tts_model w) as Hres.
  { exists asr, tts. rewrite Hget. cbn [world outcome]. by rewrite Hget'. }
  rewrite (bind_normal _ _ _ _ _ _ Hget').
  destruct (Py.truthy (Py.strip initial_text)) eqn:Htext; cbn [negb].
  2:{ rewrite (bind_raised _ _ w2 [] (ValueError "Initial text is empty") w2)
        by reflexivity.
      cbn [trace outcome world app].
      apply run_empty_text; [done|]. by apply truthy_false. }
  rewrite (bind_normal _ _ w2 [] tt w2) by reflexivity.
  pose proof (for_chain tts asr (Z.to_nat num_children) 0
                (Py.strip initial_text) w2) as Hc.
  cbn zeta in Hc. fold (range num_children) in Hc.
  change (Z.of_nat 0) with 0%Z in Hc.
  destruct (for_ (range num_children) (child_step tts asr)
              (Py.strip initial_text) w2) as [tr o w3] eqn:Hfor.
  cbn [trace outcome world] in Hc.
  destruct o as [current_text|e|].
  - rewrite (bind_normal _ _ _ _ _ _ Hfor). cbn [yield_ trace outcome world app].
    by apply (run_chain _ _ _ _ _ tr (Normal current_text)).
  - rewrite (bind_raised _ _ _ _ _ _ Hfor). cbn [trace outcome world app].
    rewrite <- (app_nil_r tr) at 1.
    by apply (run_chain _ _ _ _ _ tr (Raised e)).
  - rewrite (bind_returned _ _ _ _ _ Hfor). cbn [trace outcome world app].
    rewrite <- (app_nil_r tr) at 1.
    by apply (run_chain _ _ _ _ _ tr Returned).
Qed.

(** With both adapters resolved, only the last two shapes remain. *)
Lemma run_shape_resolved num_children asr_model tts_model initial_text voice w :
  resolved asr_model tts_model w ->
  Py.truthy (Py.strip initial_text) = true ->
  let r := _run_telephone_stream num_children asr_model tts_model
             initial_text voice w in
  exists tr o,
    chain 0 (Z.to_nat num_children) (Py.strip initial_text) tr o /\
    trace r = Instantiate "ASR_MODELS" asr_model true
              :: Instantiate "TTS_MODELS" tts_model true :: tr ++ after_loop o /\
    outcome r = after_outcome o.
Proof.
  intros (asr & tts & Ha & Ht) Htext. cbn zeta.
  pose proof (run_shape num_children asr_model tts_model initial_text voice w)
    as Hs. cbn zeta in Hs.
  inversion Hs as [Hk| e _ Ho | asr' Ho Hk | asr' e Ho _ Ho' | _ Hempty | tr o _ _ Hc].
  - unfold _get_asr in Ha. rewrite Hk in Ha. discriminate Ha.
  - rewrite Ho in Ha. discriminate Ha.
  - unfold _get_tts in Ht. rewrite Hk in Ht. discriminate Ht.
  - rewrite Ho' in Ht. discriminate Ht.
  - rewrite Hempty in Htext. discriminate Htext.
  - exists tr, o. done.
Qed.

(** ** Successful runs *)

(** C1: for a participant count N >= 1 and an initial text that is not
    empty once trimmed, with both adapters resolved, a run all of whose
    synthesis and recognition calls succeed emits exactly 2N + 1 events:
    for each step k from 0 to N-1 the event at position 2k has type "tts"
    and child_index k and the event right after it has type "stt" and
    child_index k (they are the [tts] and [stt] dictionaries of step k),
    then one event of type "done", the [done] dictionary, which is the only
    terminal event of the stream. *)
Theorem successful_run_events (N : Z) asr_model tts_model initial_text voice w :
  (1 <= N)%Z ->
  Py.truthy (Py.strip initial_text) = true ->
  resolved asr_model tts_model w ->
  let r := _run_telephone_stream N asr_model tts_model initial_text voice w in
  forallb action_ok (backend_calls (trace r)) = true ->
  length (events (trace r)) = Z.to_nat (2 * N + 1) /\
  (forall k : nat, (Z.of_nat k < N)%Z ->
     exists d d',
       events (trace r) !! (2 * k)%nat = Some d /\
       events (trace r) !! (2 * k + 1)%nat = Some d' /\
       event_type d = Some (JStr "tts") /\
       dict_get d "child_index" = Some (JInt (Z.of_nat k)) /\
       event_type d' = Some (JStr "stt") /\
       dict_get d' "child_index" = Some (JInt (Z.of_nat k)) /\
       exists text audio text',
         d = tts_event (Z.of_nat k) text audio /\
         d' = stt_event (Z.of_nat k) text') /\
  (exists d,
     events (trace r) !! Z.to_nat (2 * N) = Some d /\
     event_type d = Some (JStr "done") /\
     exists final_text, d = done_event final_text) /\
  terminal_count (events (trace r)) = 1%nat /\
  outcome r = Normal tt.
Proof.
  intros HN Htext Hres r Hok. subst r.
  destruct (run_shape_resolved N asr_model tts_model initial_text voice w
              Hres Htext) as (tr & o & Hc & Htr & Ho).
  cbn zeta in Htr, Ho. rewrite Htr in Hok |- *. rewrite Ho.
  cbn [backend_calls events] in Hok |- *.
  rewrite backend_calls_app, backend_calls_after_loop, app_nil_r in Hok.
  destruct (chain_success _ _ _ _ _ Hc Hok)
    as (final_text & -> & Hlen & Hpt & _ & _).
  destruct (chain_terminal _ _ _ _ _ Hc) as (pre & Hpre & Hev).
  cbn [after_loop after_outcome]. rewrite events_app. cbn [events].
  split; [rewrite length_app, Hlen; simpl; lia|].
  split; [|split; [|split; [|done]]].
  - intros k Hk. destruct (Hpt k) as (t & a & t' & H1 & H2); [lia|].
    rewrite Z.add_0_l in H1, H2.
    exists (tts_event (Z.of_nat k) t a), (stt_event (Z.of_nat k) t').
    split; [by apply lookup_app_l_Some|].
    split; [by apply lookup_app_l_Some|].
    do 4 (split; [reflexivity|]). by exists t, a, t'.
  - exists (done_event final_text). split.
    + replace (Z.to_nat (2 * N)) with (length (events tr) + 0)%nat by lia.
      by rewrite lookup_app_r, Nat.add_comm, Nat.add_sub by lia.
    + split; [reflexivity|by exists final_text].
  - rewrite terminal_count_app, Hev, terminal_count_none by done. done.
Qed.

(** C4: in a successful run with N >= 1 the last event has type "done",
    and the value of its [final_text] field is the value of the [text]
    field of the last event of type "stt" emitted, which is what the last
    recognition call returned. *)
Theorem finished_text_is_last_heard (N : Z) asr_model tts_model initial_text
    voice w :
  (1 <= N)%Z ->
  Py.truthy (Py.strip initial_text) = true ->
  resolved asr_model tts_model w ->
  let r := _run_telephone_stream N asr_model tts_model initial_text voice w in
  forallb action_ok (backend_calls (trace r)) = true ->
  exists final_text audio d,
    last (events (trace r)) = Some d /\
    event_type d = Some (JStr "done") /\
    dict_get d "final_text" = Some (JStr final_text) /\
    d = done_event final_text /\
    last_stt_text (events (trace r)) = Some final_text /\
    last (backend_calls (trace r))
      = Some (Transcribe audio "audio/wav" (Ok final_text)).
Proof.
  intros HN Htext Hres r Hok. subst r.
  destruct (run_shape_resolved N asr_model tts_model initial_text voice w
              Hres Htext) as (tr & o & Hc & Htr & Ho).
  cbn zeta in Htr, Ho. rewrite Htr in Hok |- *.
  cbn [backend_calls events] in Hok |- *.
  rewrite backend_calls_app, backend_calls_after_loop, app_nil_r in Hok |- *.
  destruct (chain_success _ _ _ _ _ Hc Hok)
    as (final_text & -> & _ & _ & _ & Hpos).
  destruct Hpos as (Hlast & audio & Hcall); [lia|].
  exists final_text, audio, (done_event final_text).
  cbn [after_loop]. rewrite events_app. cbn [events].
  split; [by rewrite last_snoc|].
  do 3 (split; [reflexivity|]).
  split; [by rewrite last_stt_text_app_done|done].
Qed.

(** C10: with a participant count N <= 0, a text that is not empty once
    trimmed and both adapters resolved, the loop body never runs: no
    synthesis or recognition call is made and the stream is a single
    event, of type "done", whose [final_text] field is the trimmed initial
    text. *)
Theorem nonpositive_count_only_done (N : Z) asr_model tts_model initial_text
    voice w :
  (N <= 0)%Z ->
  Py.truthy (Py.strip initial_text) = true ->
  resolved asr_model tts_model w ->
  let r := _run_telephone_stream N asr_model tts_model initial_text voice w in
  backend_calls (trace r) = [] /\
  (exists d,
     events (trace r) = [d] /\
     event_type d = Some (JStr "done") /\
     dict_get d "final_text" = Some (JStr (Py.strip initial_text)) /\
     d = done_event (Py.strip initial_text)) /\
  outcome r = Normal tt.
Proof.
  intros HN Htext Hres r. subst r.
  destruct (run_shape_resolved N asr_model tts_model initial_text voice w
              Hres Htext) as (tr & o & Hc & Htr & Ho).
  cbn zeta in Htr, Ho. rewrite Htr, Ho.
  replace (Z.to_nat N) with 0%nat in Hc by lia.
  inversion Hc; subst. split; [done|]. split; [|done].
  exists (done_event (Py.strip initial_text)). by repeat split.
Qed.

(** ** Failures *)

(** A run either raises before the loop, with nothing emitted and no call
    made, or goes through the loop. *)
Lemma run_cases num_children asr_model tts_model initial_text voice w :
  let r := _run_telephone_stream num_children asr_model tts_model
             initial_text voice w in
  (events (trace r) = [] /\ backend_calls (trace r) = [] /\
   (forall i a, trace r !! i = Some a -> exists reg key ok, a = Instantiate reg key ok) /\
   exists e, outcome r = Raised e) \/
  (exists tr o,
     resolved asr_model tts_model w /\
     Py.truthy (Py.strip initial_text) = true /\
     chain 0 (Z.to_nat num_children) (Py.strip initial_text) tr o /\
     trace r = Instantiate "ASR_MODELS" asr_model true
               :: Instantiate "TTS_MODELS" tts_model true :: tr ++ after_loop o /\
     outcome r = after_outcome o).
Proof.
  cbn zeta.
  pose proof (run_shape num_children asr_model tts_model initial_text voice w)
    as Hs. cbn zeta in Hs.
  inversion Hs as [Hk| e _ Ho | asr' Ho Hk | asr' e Ho _ Ho' | Hres Hempty
                  | tr o Hres Htext Hc];
    [left; (split; [done|]); (split; [done|]); (split; [|by eexists]);
     intros [|[|[|i]]] a Hi; simplify_eq/=; eauto .. |].
  right. exists tr, o. done.
Qed.


(** C3: in every run, every terminal event is the last event of the
    stream, so there is at most one and nothing follows it; there is none
    when the generator ends by raising, and exactly one, either [error] or
    [done] and not both, when it does not. The generator does not raise
    when both adapters are resolved, the trimmed text is not empty and
    every exception of a backend call is an instance of [Exception]. *)
Theorem terminal_event_of_a_run (N : Z) asr_model tts_model initial_text
    voice w :
  let r := _run_telephone_stream N asr_model tts_model initial_text voice w in
  terminal_is_last (events (trace r)) /\
  (terminal_count (events (trace r)) <= 1)%nat /\
  (forall e, outcome r = Raised e -> terminal_count (events (trace r)) = 0%nat) /\
  ((forall e, outcome r <> Raised e) ->
     terminal_count (events (trace r)) = 1%nat /\
     exists d, last (events (trace r)) = Some d /\
               is_terminal d = true /\ is_error d = negb (is_done d)) /\
  (resolved asr_model tts_model w ->
   Py.truthy (Py.strip initial_text) = true ->
   forallb action_caught (backend_calls (trace r)) = true ->
   forall e, outcome r <> Raised e).
Proof.
  intros r. subst r.
  destruct (run_cases N asr_model tts_model initial_text voice w)
    as [(Hev & Hnone & _ & e0 & Ho)|(tr & o & Hres & Htext & Hc & Htr & Ho)];
    cbn zeta in *.
  { rewrite Hev, Hnone, Ho. unfold terminal_count. cbn [List.filter length].
    split; [intros i d Hi; by rewrite lookup_nil in Hi|]. split; [lia|].
    split; [done|]. split; [intros Hne; by destruct (Hne e0)|].
    intros Hres Htext _ e _.
    destruct (run_shape_resolved N asr_model tts_model initial_text voice w
                Hres Htext) as (tr & o & Hc & Htr & Ho'). cbn zeta in Htr.
    rewrite Ho in Ho'. destruct o as [t|e1|]; try discriminate Ho'.
    rewrite Htr in Hnone. cbn [backend_calls] in Hnone.
    rewrite backend_calls_app, app_nil_r in Hnone.
    apply (chain_caught _ _ _ _ _ Hc) with (e := e1); [by rewrite Hnone|done]. }
  rewrite Htr, Ho. cbn [events backend_calls].
  rewrite backend_calls_app, backend_calls_after_loop, app_nil_r.
  destruct (chain_stream _ _ _ _ _ Hc) as (pre & Hpre & Hev).
  destruct o as [t|e1|]; cbn [after_outcome].
  - rewrite Hev. split; [by apply terminal_is_last_snoc|].
    rewrite terminal_count_app, terminal_count_none, terminal_count_done,
      last_snoc by done.
    split; [lia|]. split; [done|].
    split; [intros _; split; [done|]; by eexists|].
    intros _ _ _. done.
  - rewrite Hev. split; [by apply terminal_is_last_none|].
    rewrite terminal_count_none by done.
    split; [lia|]. split; [done|].
    split; [intros Hne; by destruct (Hne e1)|].
    intros _ _ Hok e _. by apply (chain_caught _ _ _ _ _ Hc Hok e1).
  - destruct Hev as (step & j & e & ->).
    split; [by apply terminal_is_last_snoc|].
    rewrite terminal_count_app, terminal_count_none, terminal_count_error,
      last_snoc by done.
    split; [lia|]. split; [done|].
    split; [intros _; split; [done|]; by eexists|].
    intros _ _ _. done.
Qed.

(** C8: when a synthesis or recognition call of a run raises [e], it is
    the call of a step k < N (after 2k successful calls for a synthesis,
    2k + 1 for a recognition). If [e] is an instance of [Exception] it is
    caught: one event comes right after the call and ends the run, of type
    "error", whose [step] field is the stage ("tts" for a synthesis, "stt"
    for a recognition), whose [child_index] field is k and whose [message]
    field is [str(e)], and the generator returns. If it is not, nothing
    follows the call, no terminal event is emitted and [e] leaves the
    generator. *)
Theorem backend_exception_outcome (N : Z) asr_model tts_model initial_text
    voice w i a e :
  let r := _run_telephone_stream N asr_model tts_model initial_text voice w in
  trace r !! i = Some a ->
  (exists t, a = Synthesize t (Err e)) \/
  (exists b c, a = Transcribe b c (Err e)) ->
  exists (k : nat) step,
    (Z.of_nat k < N)%Z /\
    (forall t, a = Synthesize t (Err e) ->
       step = "tts" /\
       length (backend_calls (take i (trace r))) = (2 * k)%nat) /\
    (forall b c, a = Transcribe b c (Err e) ->
       step = "stt" /\
       length (backend_calls (take i (trace r))) = (2 * k + 1)%nat) /\
    (isinstance_Exception e = true ->
       (exists d,
          drop (S i) (trace r) = [Yield d] /\
          last (events (trace r)) = Some d /\
          event_type d = Some (JStr "error") /\
          dict_get d "step" = Some (JStr step) /\
          dict_get d "child_index" = Some (JInt (Z.of_nat k)) /\
          dict_get d "message" = Some (JStr (str e)) /\
          d = error_event step (Z.of_nat k) (str e)) /\
       terminal_count (events (trace r)) = 1%nat /\
       outcome r = Returned) /\
    (isinstance_Exception e = false ->
       drop (S i) (trace r) = [] /\
       terminal_count (events (trace r)) = 0%nat /\
       outcome r = Raised e).
Proof.
  intros r Hi Ha. subst r.
  destruct (run_cases N asr_model tts_model initial_text voice w)
    as [(_ & _ & Hinst & _)|(tr & o & _ & _ & Hc & Htr & Ho)]; cbn zeta in *.
  { destruct (Hinst i a Hi) as (reg & key & ok & ->).
    destruct Ha as [[t Ha]|(b & c & Ha)]; discriminate Ha. }
  rewrite Htr in Hi |- *. rewrite Ho.
  destruct i as [|[|i]]; cbn in Hi;
    [simplify_eq; destruct Ha as [[t Ha]|(b & c & Ha)]; discriminate Ha..|].
  destruct (chain_failure _ _ _ _ _ Hc i a e Hi Ha)
    as (k & step & Hk & Hs & Ht & Hd).
  destruct (chain_stream _ _ _ _ _ Hc) as (pre & Hpre & Hev).
  rewrite Z.add_0_l in Hd.
  exists k, step. split; [lia|].
  cbn [take drop backend_calls events].
  split; [done|]. split; [done|].
  destruct (isinstance_Exception e); destruct Hd as [Hd ->];
    (split; intros Hx); try discriminate Hx; cbn [after_outcome].
  - destruct Hev as (step' & j & e' & Hev). split.
    + exists (error_event step (Z.of_nat k) (str e)). split; [done|].
      rewrite <- (take_drop (S i) (tr ++ after_loop Returned)) at 1.
      rewrite Hd, events_app. cbn [events]. rewrite last_snoc.
      by repeat split.
    + split; [|done].
      rewrite Hev, terminal_count_app, terminal_count_none by done. done.
  - split; [done|]. split; [|done]. rewrite Hev. by apply terminal_count_none.
Qed.

(** C9: in every run, a synthesis call that succeeds with the bytes [b] is
    followed at once by an event of type "tts" whose [text] field is the
    text synthesized and whose [audio_base64] field holds the base64 text of
    [b], which decodes to [b]; and every event of type "tts" of the stream
    follows such a call, its [audio_base64] field decoding to the bytes the
    call returned. *)
Theorem audio_payload_round_trip (N : Z) asr_model tts_model initial_text
    voice w i :
  let r := _run_telephone_stream N asr_model tts_model initial_text voice w in
  (forall t b, trace r !! i = Some (Synthesize t (Ok b)) ->
     exists (k : nat) a d,
       trace r !! S i = Some (Yield d) /\
       event_type d = Some (JStr "tts") /\
       dict_get d "child_index" = Some (JInt (Z.of_nat k)) /\
       dict_get d "text" = Some (JStr t) /\
       dict_get d "audio_base64" = Some (JStr a) /\
       d = tts_event (Z.of_nat k) t a /\
       a = Base64.b64encode b /\
       Base64.b64decode a = Some b) /\
  (forall d, trace r !! S i = Some (Yield d) ->
     event_type d = Some (JStr "tts") ->
     exists t b a,
       trace r !! i = Some (Synthesize t (Ok b)) /\
       dict_get d "text" = Some (JStr t) /\
       dict_get d "audio_base64" = Some (JStr a) /\
       Base64.b64decode a = Some b).
Proof.
  intros r. subst r.
  destruct (run_cases N asr_model tts_model initial_text voice w)
    as [(_ & _ & Hinst & _)|(tr & o & _ & _ & Hc & Htr & Ho)]; cbn zeta in *.
  { split; [intros t b Hi|intros d Hi Hd].
    - by destruct (Hinst _ _ Hi) as (reg & key & ok & ?).
    - by destruct (Hinst _ _ Hi) as (reg & key & ok & ?). }
  rewrite Htr. destruct i as [|[|i]].
  - split; [intros t b Hi|intros d Hi Hd]; cbn in Hi; simplify_eq.
  - split; [intros t b Hi|intros d Hi Hd]; cbn in Hi; simplify_eq.
    destruct Hc; cbn in Hi; simplify_eq.
  - destruct (chain_audio _ _ _ _ _ Hc i) as [H1 H2].
    split; [intros t b Hi|intros d Hi Hd]; cbn in Hi.
    + destruct (H1 t b Hi) as [k Hk]. rewrite Z.add_0_l in Hk.
      exists k, (Base64.b64encode b),
        (tts_event (Z.of_nat k) t (Base64.b64encode b)).
      split; [exact Hk|]. do 6 (split; [reflexivity|]).
      apply Base64Facts.b64decode_b64encode.
    + destruct (H2 d Hi Hd) as (k & t & b & Hk & ->).
      exists t, b, (Base64.b64encode b). cbn.
      split; [done|]. split; [done|]. split; [done|].
      apply Base64Facts.b64decode_b64encode.
Qed.

(** ** Rejected requests *)

(** C6: when the recognition key or the synthesis key of a request is not
    in its registry, looking the key up raises the unknown-model
    [HTTPException]; the run raises before the loop, without a synthesis
    or recognition call and without an event. The exception of the run is
    the one of the recognition key when that key is absent, and the one of
    the synthesis key when the recognition adapter was resolved. *)
Theorem unknown_backend_key (N : Z) asr_model tts_model initial_text voice w :
  ASR_MODELS !! asr_model = None \/ TTS_MODELS !! tts_model = None ->
  let r := _run_telephone_stream N asr_model tts_model initial_text voice w in
  events (trace r) = [] /\
  backend_calls (trace r) = [] /\
  (exists e, outcome r = Raised e) /\
  (ASR_MODELS !! asr_model = None ->
     outcome (_get_asr asr_model w)
       = Raised (HTTPException 400 ("Unknown ASR model: " +:+ asr_model)) /\
     trace r = [] /\
     outcome r = Raised (HTTPException 400 ("Unknown ASR model: " +:+ asr_model))) /\
  (TTS_MODELS !! tts_model = None ->
     (forall w', outcome (_get_tts tts_model None w')
        = Raised (HTTPException 400 ("Unknown TTS model: " +:+ tts_model))) /\
     (forall asr, outcome (_get_asr asr_model w) = Normal asr ->
        outcome r = Raised (HTTPException 400 ("Unknown TTS model: " +:+ tts_model)))).
Proof.
  intros Hkey r. subst r.
  pose proof (run_shape N asr_model tts_model initial_text voice w) as Hs.
  cbn zeta in Hs.
  inversion Hs as [Hk| e [cls Hk] Ho | asr' Ho Hk | asr' e Ho [cls Hk] Ho'
                  | (asr' & tts' & Ho & Ho') _
                  | tr o (asr' & tts' & Ho & Ho') _ _].
  - split; [done|]. split; [done|]. split; [by eexists|]. split.
    + intros _. by rewrite get_asr_unknown.
    + intros Hk'. split; [intros w'; by rewrite get_tts_unknown|].
      intros asr Ha. rewrite get_asr_unknown in Ha by done. discriminate Ha.
  - split; [done|]. split; [done|]. split; [by eexists|]. split.
    + intros Hk'. rewrite Hk' in Hk. discriminate Hk.
    + intros Hk'. split; [intros w'; by rewrite get_tts_unknown|].
      intros asr Ha. rewrite Ha in Ho. discriminate Ho.
  - split; [done|]. split; [done|]. split; [by eexists|]. split.
    + intros Hk'. rewrite get_asr_unknown in Ho by done. discriminate Ho.
    + intros _. split; [intros w'; by rewrite get_tts_unknown|]. done.
  - split; [done|]. split; [done|]. split; [by eexists|]. split.
    + intros Hk'. rewrite get_asr_unknown in Ho by done. discriminate Ho.
    + intros Hk'. rewrite Hk' in Hk. discriminate Hk.
  - destruct Hkey as [Hk|Hk].
    + rewrite get_asr_unknown in Ho by done. discriminate Ho.
    + rewrite get_tts_unknown in Ho' by done. discriminate Ho'.
  - destruct Hkey as [Hk|Hk].
    + rewrite get_asr_unknown in Ho by done. discriminate Ho.
    + rewrite get_tts_unknown in Ho' by done. discriminate Ho'.
Qed.

(** C7: a request whose text is absent, empty or made of whitespace only,
    without an audio file, is rejected by both endpoints with an
    [HTTPException] of status 400 before any generator exists, so nothing is
    instantiated, called or emitted; and the generator itself, given such
    a text, raises before the loop without an event, the [ValueError] of
    the empty text when both adapters are resolved. *)
Theorem blank_text_rejected (N : Z) asr_model tts_model (text : option string) w :
  Py.all_space (Py.opt_or text "") = true ->
  start_game_stream N asr_model tts_model text None w
    = mkOut [] (Raised (HTTPException 400 "Provide either 'text' or 'audio' file.")) w /\
  serve (start_game_stream N asr_model tts_model text None) w
    = mkOut [] (Raised (HTTPException 400 "Provide either 'text' or 'audio' file.")) w /\
  (forall params, gp_text params = text ->
     start_game_stream_json params w
       = mkOut [] (Raised (HTTPException 400 "Provide 'text' in body.")) w /\
     exists e, serve (route_start_json params) w = mkOut [] (Raised e) w) /\
  (forall voice,
     let r := _run_telephone_stream N asr_model tts_model (Py.opt_or text "")
                voice w in
     events (trace r) = [] /\
     backend_calls (trace r) = [] /\
     (exists e, outcome r = Raised e) /\
     (resolved asr_model tts_model w ->
      outcome r = Raised (ValueError "Initial text is empty"))).
Proof.
  intros Hblank. pose proof (strip_all_space _ Hblank) as Hstrip.
  assert (start_game_stream N asr_model tts_model text None w
          = mkOut [] (Raised (HTTPException 400
                                "Provide either 'text' or 'audio' file.")) w)
    as Hmulti.
  { unfold start_game_stream. rewrite Hstrip. cbn [Py.truthy].
    by apply bind_raised. }
  assert (forall params, gp_text params = text ->
          start_game_stream_json params w
          = mkOut [] (Raised (HTTPException 400 "Provide 'text' in body.")) w)
    as Hjson.
  { intros params Ht. unfold start_game_stream_json. rewrite Ht, Hstrip.
    cbn [Py.truthy negb]. by apply bind_raised. }
  split; [done|]. split; [unfold serve; by apply bind_raised|].
  split.
  { intros params Ht. split; [by apply Hjson|].
    unfold serve, route_start_json. destruct (GameParams_valid params).
    - eexists. apply bind_raised. by apply Hjson.
    - eexists. by apply bind_raised. }
  intros voice r. subst r.
  pose proof (run_shape N asr_model tts_model (Py.opt_or text "") voice w) as Hs.
  cbn zeta in Hs.
  inversion Hs as [Hk| e _ Ho | asr' Ho Hk | asr' e Ho _ Ho' | _ Hempty
                  | tr o _ Htext _].
  - split; [done|]. split; [done|]. split; [by eexists|].
    intros (asr & tts & Ha & _). rewrite get_asr_unknown in Ha by done.
    discriminate Ha.
  - split; [done|]. split; [done|]. split; [by eexists|].
    intros (asr & tts & Ha & _). rewrite Ho in Ha. discriminate Ha.
  - split; [done|]. split; [done|]. split; [by eexists|].
    intros (asr & tts & _ & Ht). rewrite get_tts_unknown in Ht by done.
    discriminate Ht.
  - split; [done|]. split; [done|]. split; [by eexists|].
    intros (asr & tts & _ & Ht). rewrite Ho' in Ht. discriminate Ht.
  - split; [done|]. split; [done|]. split; [by eexists|]. done.
  - rewrite Hstrip in Htext. discriminate Htext.
Qed.

End Facts.

(** * The backend on concrete requests *)

(** Base64 and [strip] on known values. *)
Example b64encode_Man : Base64.b64encode [x4d; x61; x6e]%byte = "TWFu".
Proof. reflexivity. Qed.

Example b64encode_Ma : Base64.b64encode [x4d; x61]%byte = "TWE=".
Proof. reflexivity. Qed.

Example b64encode_M : Base64.b64encode [x4d]%byte = "TQ==".
Proof. reflexivity. Qed.

Example b64decode_TWE : Base64.b64decode "TWE=" = Some [x4d; x61]%byte.
Proof. reflexivity. Qed.

Example strip_hello : Py.strip "  hello world  " = "hello world".
Proof. reflexivity. Qed.

(** The frame of a [done] event. *)
Example sse_message_done :
  _sse_message (done_event "hi")
  = "data: {" +:+ Json.dumps_str "type" +:+ ": " +:+ Json.dumps_str "done"
    +:+ ", " +:+ Json.dumps_str "final_text" +:+ ": " +:+ Json.dumps_str "hi"
    +:+ "}" +:+ String Json.newline (String Json.newline EmptyString).
Proof. reflexivity. Qed.

Example sse_message_length :
  String.length (_sse_message (stt_event 12 "hi")) = 56%nat.
Proof. reflexivity. Qed.

(** The scenario of two children who hear well. *)
Example echo_two_children :
  events (trace (Demo.run_echo 2))
  = [tts_event 0 "hello world" "UklGRg=="; stt_event 0 "hello world";
     tts_event 1 "hello world" "UklGRg=="; stt_event 1 "hello world";
     done_event "hello world"].
Proof. vm_compute. reflexivity. Qed.

(** The scenario of three children where the recognition of step 1 fails. *)
Example deaf_second_child :
  events (trace (Demo.run_failing_at 3 Demo.RuntimeError 3))
  = [tts_event 0 "hello world" "UklGRg=="; stt_event 0 "hello world";
     tts_event 1 "hello world" "UklGRg==";
     error_event "stt" 1 "CUDA out of memory"].
Proof. vm_compute. reflexivity. Qed.

(** C5: the multipart endpoint does not reject a participant count of 0:
    served on the scripted models with the text "hi" it runs the generator,
    which emits the single event [done] with "hi" and ends normally, while
    the JSON route rejects the same parameters by the constraint [ge=1] of
    [GameParams]. *)
Theorem zero_children_not_rejected :
  events (trace Demo.serve_zero_children) = [done_event "hi"] /\
  outcome Demo.serve_zero_children = Normal tt /\
  GameParams_valid Demo.zero_children_body = false /\
  outcome (@serve Demo.echo (@route_start_json Demo.echo Demo.zero_children_body) 0%nat)
  = Raised (Exc "RequestValidationError" true "num_children").
Proof. vm_compute. done. Qed.

(** * Instances of the theorems *)

Lemma echo_resolved : @resolved Demo.echo "whisper" "chatterbox" 0%nat.
Proof. do 2 eexists. split; reflexivity. Qed.

Lemma failing_at_resolved n e :
  @resolved (Demo.failing_at n e) "whisper" "chatterbox" 0%nat.
Proof. do 2 eexists. split; reflexivity. Qed.

Lemma successful_run_events_witness :
  (1 <= 2)%Z /\
  Py.truthy (Py.strip "hello world") = true /\
  forallb action_ok (backend_calls (trace (Demo.run_echo 2))) = true /\
  length (events (trace (Demo.run_echo 2))) = 5%nat /\
  terminal_count (events (trace (Demo.run_echo 2))) = 1%nat.
Proof.
  assert (1 <= 2)%Z as H1 by lia.
  assert (Py.truthy (Py.strip "hello world") = true) as H2 by reflexivity.
  assert (forallb action_ok (backend_calls (trace (Demo.run_echo 2))) = true)
    as H3 by reflexivity.
  destruct (@successful_run_events Demo.echo 2 "whisper" "chatterbox"
              "hello world" None 0%nat H1 H2 echo_resolved H3)
    as (Hlen & _ & _ & Hcount & _).
  exact (conj H1 (conj H2 (conj H3 (conj Hlen Hcount)))).
Defined.

Lemma finished_text_is_last_heard_witness :
  (1 <= 2)%Z /\
  Py.truthy (Py.strip "hello world") = true /\
  forallb action_ok (backend_calls (trace (Demo.run_echo 2))) = true /\
  exists final_text audio d,
    last (events (trace (Demo.run_echo 2))) = Some d /\
    event_type d = Some (JStr "done") /\
    dict_get d "final_text" = Some (JStr final_text) /\
    d = done_event final_text /\
    last_stt_text (events (trace (Demo.run_echo 2))) = Some final_text /\
    last (backend_calls (trace (Demo.run_echo 2)))
      = Some (Transcribe audio "audio/wav" (Ok final_text)).
Proof.
  assert (1 <= 2)%Z as H1 by lia.
  assert (Py.truthy (Py.strip "hello world") = true) as H2 by reflexivity.
  assert (forallb action_ok (backend_calls (trace (Demo.run_echo 2))) = true)
    as H3 by reflexivity.
  exact (conj H1 (conj H2 (conj H3
    (@finished_text_is_last_heard Demo.echo 2 "whisper" "chatterbox"
       "hello world" None 0%nat H1 H2 echo_resolved H3)))).
Defined.

Lemma nonpositive_count_only_done_witness :
  (-3 <= 0)%Z /\
  Py.truthy (Py.strip "hello world") = true /\
  backend_calls (trace (Demo.run_echo (-3))) = [] /\
  (exists d,
     events (trace (Demo.run_echo (-3))) = [d] /\
     event_type d = Some (JStr "done") /\
     dict_get d "final_text" = Some (JStr (Py.strip "hello world")) /\
     d = done_event (Py.strip "hello world")) /\
  outcome (Demo.run_echo (-3)) = Normal tt.
Proof.
  assert (-3 <= 0)%Z as H1 by lia.
  assert (Py.truthy (Py.strip "hello world") = true) as H2 by reflexivity.
  exact (conj H1 (conj H2
    (@nonpositive_count_only_done Demo.echo (-3) "whisper" "chatterbox"
       "hello world" None 0%nat H1 H2 echo_resolved))).
Defined.



(** The claim that every run has exactly one terminal event does not hold.
    With both adapters resolved and the text "hello world", a synthesis that
    raises [KeyboardInterrupt], which is not an instance of [Exception],
    ends the stream without a terminal event; and so does a request whose
    synthesis key is in no registry. *)
Lemma run_without_terminal_event :
  outcome (Demo.run_failing_at 0 Demo.KeyboardInterrupt 3)
  = Raised Demo.KeyboardInterrupt /\
  terminal_count (events (trace (Demo.run_failing_at 0 Demo.KeyboardInterrupt 3)))
  <> 1%nat /\
  events (trace Demo.run_unknown_tts) = [] /\
  terminal_count (events (trace Demo.run_unknown_tts)) <> 1%nat.
Proof. vm_compute. repeat split; discriminate. Qed.

Lemma terminal_event_of_a_run_witness :
  Py.truthy (Py.strip "hello world") = true /\
  forallb action_caught
    (backend_calls (trace (Demo.run_failing_at 3 Demo.RuntimeError 3))) = true /\
  terminal_is_last (events (trace (Demo.run_failing_at 3 Demo.RuntimeError 3))) /\
  terminal_count (events (trace (Demo.run_failing_at 3 Demo.RuntimeError 3)))
  = 1%nat.
Proof.
  assert (Py.truthy (Py.strip "hello world") = true) as H1 by reflexivity.
  assert (forallb action_caught
            (backend_calls (trace (Demo.run_failing_at 3 Demo.RuntimeError 3)))
          = true) as H2 by reflexivity.
  destruct (@terminal_event_of_a_run (Demo.failing_at 3 Demo.RuntimeError) 3
              "whisper" "chatterbox" "hello world" None 0%nat)
    as (Hlast & _ & _ & Hone & Hcaught).
  destruct (Hone (Hcaught (failing_at_resolved _ _) H1 H2)) as [Hcount _].
  exact (conj H1 (conj H2 (conj Hlast Hcount))).
Defined.

(** The claim that an exception of any class is caught does not hold: a
    synthesis that raises [KeyboardInterrupt] at step 0 is followed by no
    event, and a recognition that raises it at step 0 by none after the
    [tts] event; in both runs the exception leaves the generator. *)
Lemma keyboard_interrupt_not_caught :
  trace (Demo.run_failing_at 0 Demo.KeyboardInterrupt 3) !! 2%nat
  = Some (Synthesize "hello world" (Err Demo.KeyboardInterrupt)) /\
  events (trace (Demo.run_failing_at 0 Demo.KeyboardInterrupt 3)) = [] /\
  outcome (Demo.run_failing_at 0 Demo.KeyboardInterrupt 3)
  = Raised Demo.KeyboardInterrupt /\
  trace (Demo.run_failing_at 1 Demo.KeyboardInterrupt 3) !! 4%nat
  = Some (Transcribe Demo.fixed_audio "audio/wav" (Err Demo.KeyboardInterrupt)) /\
  events (trace (Demo.run_failing_at 1 Demo.KeyboardInterrupt 3))
  = [tts_event 0 "hello world" "UklGRg=="] /\
  outcome (Demo.run_failing_at 1 Demo.KeyboardInterrupt 3)
  = Raised Demo.KeyboardInterrupt.
Proof. vm_compute. done. Qed.

Lemma backend_exception_outcome_witness :
  trace (Demo.run_failing_at 3 Demo.RuntimeError 3) !! 8%nat
  = Some (Transcribe Demo.fixed_audio "audio/wav" (Err Demo.RuntimeError)) /\
  (exists d,
     drop 9 (trace (Demo.run_failing_at 3 Demo.RuntimeError 3)) = [Yield d] /\
     last (events (trace (Demo.run_failing_at 3 Demo.RuntimeError 3))) = Some d /\
     event_type d = Some (JStr "error") /\
     dict_get d "step" = Some (JStr "stt") /\
     dict_get d "child_index" = Some (JInt 1) /\
     dict_get d "message" = Some (JStr "CUDA out of memory") /\
     d = error_event "stt" 1 "CUDA out of memory") /\
  terminal_count (events (trace (Demo.run_failing_at 3 Demo.RuntimeError 3)))
  = 1%nat /\
  outcome (Demo.run_failing_at 3 Demo.RuntimeError 3) = Returned.
Proof.
  assert (trace (Demo.run_failing_at 3 Demo.RuntimeError 3) !! 8%nat
          = Some (Transcribe Demo.fixed_audio "audio/wav" (Err Demo.RuntimeError)))
    as H1 by reflexivity.
  destruct (@backend_exception_outcome (Demo.failing_at 3 Demo.RuntimeError) 3
              "whisper" "chatterbox" "hello world" None 0%nat 8%nat _
              Demo.RuntimeError H1
              (or_intror (ex_intro _ _ (ex_intro _ _ eq_refl))))
    as (k & step & _ & _ & Hstt & Hexc & _).
  destruct (Hstt _ _ eq_refl) as [-> Hk].
  assert (k = 1%nat) as ->.
  { assert (3 = 2 * k + 1)%nat as Hk' by exact Hk. lia. }
  exact (conj H1 (Hexc eq_refl)).
Defined.

Lemma audio_payload_round_trip_witness :
  trace (Demo.run_echo 2) !! 2%nat
  = Some (Synthesize "hello world" (Ok Demo.fixed_audio)) /\
  exists (k : nat) a d,
    trace (Demo.run_echo 2) !! 3%nat = Some (Yield d) /\
    event_type d = Some (JStr "tts") /\
    dict_get d "child_index" = Some (JInt (Z.of_nat k)) /\
    dict_get d "text" = Some (JStr "hello world") /\
    dict_get d "audio_base64" = Some (JStr a) /\
    d = tts_event (Z.of_nat k) "hello world" a /\
    a = Base64.b64encode Demo.fixed_audio /\
    Base64.b64decode a = Some Demo.fixed_audio.
Proof.
  assert (trace (Demo.run_echo 2) !! 2%nat
          = Some (Synthesize "hello world" (Ok Demo.fixed_audio)))
    as H1 by reflexivity.
  exact (conj H1
    (proj1 (@audio_payload_round_trip Demo.echo 2 "whisper" "chatterbox"
              "hello world" None 0%nat 2%nat) "hello world" Demo.fixed_audio H1)).
Defined.

Lemma unknown_backend_key_witness :
  @TTS_MODELS Demo.echo !! "nonexistent-model" = None /\
  events (trace Demo.run_unknown_tts) = [] /\
  backend_calls (trace Demo.run_unknown_tts) = [] /\
  outcome Demo.run_unknown_tts
  = Raised (HTTPException 400 "Unknown TTS model: nonexistent-model").
Proof.
  assert (@TTS_MODELS Demo.echo !! "nonexistent-model" = None) as H1
    by reflexivity.
  destruct (@unknown_backend_key Demo.echo 3 "whisper" "nonexistent-model"
              "hello world" None 0%nat (or_intror H1))
    as (Hev & Hcalls & _ & _ & Htts).
  destruct (Htts H1) as [_ Hrun].
  exact (conj H1 (conj Hev (conj Hcalls (Hrun _ eq_refl)))).
Defined.

Lemma blank_text_rejected_witness :
  Py.all_space (Py.opt_or (Some "   ") "") = true /\
  @start_game_stream Demo.echo 4 "whisper" "chatterbox" (Some "   ") None 0%nat
  = @mkOut Demo.echo _ []
      (Raised (HTTPException 400 "Provide either 'text' or 'audio' file.")) 0%nat /\
  events (trace (@_run_telephone_stream Demo.echo 4 "whisper" "chatterbox"
                   "   " None 0%nat)) = [] /\
  outcome (@_run_telephone_stream Demo.echo 4 "whisper" "chatterbox"
             "   " None 0%nat)
  = Raised (ValueError "Initial text is empty").
Proof.
  assert (Py.all_space (Py.opt_or (Some "   ") "") = true) as H1 by reflexivity.
  destruct (@blank_text_rejected Demo.echo 4 "whisper" "chatterbox"
              (Some "   ") 0%nat H1) as (Hmulti & _ & _ & Hrun).
  destruct (Hrun None) as (Hev & _ & _ & Hval).
  exact (conj H1 (conj Hmulti (conj Hev (Hval echo_resolved)))).
Defined.

(** * Further properties of the backend and of its adapters *)

(** ** More on [strip] *)

Lemma rstrip_idem s : Py.rstrip (Py.rstrip s) = Py.rstrip s.
Proof.
  induction s as [|c s IH]; [done|].
  cbn [Py.rstrip]. destruct (Py.rstrip s) as [|c' r] eqn:Hr.
  - destruct (Py.isspace c) eqn:Hc; [done|]. cbn [Py.rstrip]. by rewrite Hc.
  - cbn [Py.rstrip] in IH |- *. by rewrite IH.
Qed.

Lemma rstrip_cons_head c r :
  Py.isspace c = false -> exists r', Py.rstrip (String c r) = String c r'.
Proof.
  intros Hc. cbn [Py.rstrip]. rewrite Hc. destruct (Py.rstrip r); by eexists.
Qed.

Lemma strip_idem s : Py.strip (Py.strip s) = Py.strip s.
Proof.
  unfold Py.strip. destruct (Py.lstrip s) as [|c r] eqn:Hl; [done|].
  apply lstrip_head in Hl.
  destruct (rstrip_cons_head c r Hl) as [r' Hr].
  rewrite Hr at 1. cbn [Py.lstrip]. rewrite Hl, <- Hr. apply rstrip_idem.
Qed.

Section EndpointFacts.
Context `{Models}.

(** The generator sees its text only once stripped. *)
Lemma run_strip N asr_model tts_model s voice w :
  _run_telephone_stream N asr_model tts_model (Py.strip s) voice w
  = _run_telephone_stream N asr_model tts_model s voice w.
Proof. unfold _run_telephone_stream. by rewrite strip_idem. Qed.

(** A run whose recognition key is in the registry starts by instantiating
    the recognition adapter. *)
Lemma run_instantiates_asr N asr_model tts_model s voice w :
  is_Some (ASR_MODELS !! asr_model) ->
  exists ok,
    trace (_run_telephone_stream N asr_model tts_model s voice w) !! 0%nat
    = Some (Instantiate "ASR_MODELS" asr_model ok).
Proof.
  intros [cls Hk].
  pose proof (run_shape N asr_model tts_model s voice w) as Hs. cbn zeta in Hs.
  inversion Hs as [Hk'| | | | |]; [by rewrite Hk in Hk'|by eexists..].
Qed.

(** The multipart endpoint on a request without usable text and with an
    upload, by what the recognition of the upload gives. *)
Lemma start_audio_cases N asr_model tts_model text upload w tr0 asr w1 res w2 :
  Py.strip (Py.opt_or text "") = EmptyString ->
  _get_asr asr_model w = mkOut tr0 (Normal asr) w1 ->
  transcribe asr (uf_contents upload)
    (Py.opt_or (uf_content_type upload) "audio/wav") w1 = (res, w2) ->
  let call := Transcribe (uf_contents upload)
                (Py.opt_or (uf_content_type upload) "audio/wav") res in
  start_game_stream N asr_model tts_model text (Some upload) w
  = mkOut (tr0 ++ [call])
      match res with
      | Err e =>
          if isinstance_Exception e
          then Raised (HTTPException 400 ("ASR failed: " +:+ str e))
          else Raised e
      | Ok t =>
          if Py.truthy t
          then Normal {| body_iterator :=
                           _run_telephone_stream N asr_model tts_model t None;
                         media_type := "text/event-stream";
                         headers := sse_headers |}
          else Raised (HTTPException 400 "No speech detected in audio.")
      end w2.
Proof.
  intros Hblank Hget Htr call. subst call.
  unfold start_game_stream. rewrite Hblank. cbn [Py.truthy].
  rewrite (bind_normal _ _ w [] tt w) by reflexivity.
  rewrite (bind_normal _ _ w [] tt w) by reflexivity.
  cbn [trace outcome world app].
  set (k := fun initial_text : string => ret _).
  set (inner := bind (_get_asr asr_model) _).
  assert (inner w
          = mkOut (tr0 ++ [Transcribe (uf_contents upload)
                             (Py.opt_or (uf_content_type upload) "audio/wav") res])
              match res with
              | Err e =>
                  if isinstance_Exception e
                  then Raised (HTTPException 400 ("ASR failed: " +:+ str e))
                  else Raised e
              | Ok t =>
                  if Py.truthy t then Normal t
                  else Raised (HTTPException 400 "No speech detected in audio.")
              end w2) as Hinner.
  { subst inner. rewrite (bind_normal _ _ _ _ _ _ Hget).
    unfold bind, try_except_Exception, call_transcribe, call, raise, ret.
    rewrite Htr. destruct res as [t|e].
    - by destruct (Py.truthy t).
    - by destruct (isinstance_Exception e). }
  destruct res as [t|e].
  - destruct (Py.truthy t).
    + rewrite (bind_normal _ _ _ _ _ _ Hinner). subst k. cbn.
      by rewrite app_nil_r.
    + by rewrite (bind_raised _ _ _ _ _ _ Hinner).
  - destruct (isinstance_Exception e);
      by rewrite (bind_raised _ _ _ _ _ _ Hinner).
Qed.

End EndpointFacts.

Section EndpointTheorems.
Context `{Models}.

(** X5: on a request with a text that is not blank and without audio the
    multipart endpoint raises nothing, whatever the model keys: it returns
    the event-stream response without instantiating or calling anything,
    and serving that response is the run of the generator on the text of
    the request; the keys are only looked up when the stream is read. *)
Theorem text_request_served (N : Z) asr_model tts_model (text : option string) w :
  Py.truthy (Py.strip (Py.opt_or text "")) = true ->
  (exists response,
     start_game_stream N asr_model tts_model text None w
     = mkOut [] (Normal response) w /\
     media_type response = "text/event-stream") /\
  serve (start_game_stream N asr_model tts_model text None) w
  = _run_telephone_stream N asr_model tts_model (Py.opt_or text "") None w.
Proof.
  intros Htext.
  assert (start_game_stream N asr_model tts_model text None w
          = mkOut [] (Normal {| body_iterator :=
                                  _run_telephone_stream N asr_model tts_model
                                    (Py.strip (Py.opt_or text "")) None;
                                media_type := "text/event-stream";
                                headers := sse_headers |}) w) as Hstart.
  { unfold start_game_stream. rewrite Htext.
    rewrite (bind_normal _ _ w [] tt w) by reflexivity.
    rewrite (bind_normal _ _ w [] tt w) by reflexivity.
    reflexivity. }
  split; [eexists; split; [exact Hstart|done]|].
  unfold serve. rewrite (bind_normal _ _ _ _ _ _ Hstart).
  cbn [body_iterator app]. rewrite run_strip.
  by destruct (_run_telephone_stream _ _ _ _ _ _).
Qed.

(** X6: a JSON request whose [num_children] is within 1..20 and whose
    text is not blank is served as the run of the generator on its fields;
    its stream has at most 41 events and makes at most 40 calls of
    [synthesize] and [transcribe]. *)
Theorem json_request_served (body : GameParams) w :
  GameParams_valid body = true ->
  Py.truthy (Py.strip (Py.opt_or (gp_text body) "")) = true ->
  let r := serve (route_start_json body) w in
  r = _run_telephone_stream (gp_num_children body) (gp_asr_model body)
        (gp_tts_model body) (Py.opt_or (gp_text body) "") None w /\
  (length (events (trace r)) <= 41)%nat /\
  (length (backend_calls (trace r)) <= 40)%nat.
Proof.
  intros Hvalid Htext r.
  assert (r = _run_telephone_stream (gp_num_children body) (gp_asr_model body)
                (gp_tts_model body) (Py.opt_or (gp_text body) "") None w) as Hr.
  { subst r. unfold serve, route_start_json. rewrite Hvalid.
    assert (start_game_stream_json body w
            = mkOut [] (Normal {| body_iterator :=
                                    _run_telephone_stream (gp_num_children body)
                                      (gp_asr_model body) (gp_tts_model body)
                                      (Py.strip (Py.opt_or (gp_text body) "")) None;
                                  media_type := "text/event-stream";
                                  headers := sse_headers |}) w) as Hstart.
    { unfold start_game_stream_json. rewrite Htext.
      rewrite (bind_normal _ _ w [] tt w) by reflexivity. reflexivity. }
    rewrite (bind_normal _ _ _ _ _ _ Hstart).
    cbn [body_iterator app]. rewrite run_strip.
    by destruct (_run_telephone_stream _ _ _ _ _ _). }
  split; [done|]. rewrite Hr.
  unfold GameParams_valid in Hvalid. apply andb_prop in Hvalid as [H1 H20].
  apply Z.leb_le in H1, H20.
  destruct (run_cases (gp_num_children body) (gp_asr_model body)
              (gp_tts_model body) (Py.opt_or (gp_text body) "") None w)
    as [(Hev & Hnone & _)|(tr & o & _ & _ & Hc & Htr & Ho)]; cbn zeta in *.
  { rewrite Hev, Hnone. simpl. lia. }
  rewrite Htr. cbn [events backend_calls].
  rewrite events_app, backend_calls_app, backend_calls_after_loop, app_nil_r,
    length_app.
  assert (length (events tr) <= 2 * Z.to_nat (gp_num_children body)
          /\ length (backend_calls tr) <= 2 * Z.to_nat (gp_num_children body))%nat
    as [He Hb].
  { clear -Hc. induction Hc; cbn [events backend_calls length]; lia. }
  split; [|lia]. destruct o; cbn [after_loop events length]; lia.
Qed.

(** X7: a request with both a text that is not blank and an audio file
    is refused with status 400 and "Provide either 'text' or 'audio', not
    both.", without any adapter being instantiated or called and with the
    world unchanged. *)
Theorem text_and_audio_rejected (N : Z) asr_model tts_model (text : option string)
    (upload : UploadFile) w :
  Py.truthy (Py.strip (Py.opt_or text "")) = true ->
  start_game_stream N asr_model tts_model text (Some upload) w
  = mkOut [] (Raised (HTTPException 400
                        "Provide either 'text' or 'audio', not both.")) w /\
  serve (start_game_stream N asr_model tts_model text (Some upload)) w
  = mkOut [] (Raised (HTTPException 400
                        "Provide either 'text' or 'audio', not both.")) w.
Proof.
  intros Htext.
  assert (start_game_stream N asr_model tts_model text (Some upload) w
          = mkOut [] (Raised (HTTPException 400
                                "Provide either 'text' or 'audio', not both.")) w)
    as Hstart.
  { unfold start_game_stream. rewrite Htext.
    rewrite (bind_normal _ _ w [] tt w) by reflexivity.
    rewrite (bind_raised _ _ w []
               (HTTPException 400 "Provide either 'text' or 'audio', not both.") w)
      by reflexivity.
    reflexivity. }
  split; [done|]. unfold serve. by apply bind_raised.
Qed.

(** X8: a request with audio and no usable text is refused by the
    endpoint itself, before any stream exists: with status 400 and the
    unknown-model detail when the recognition key is not in the registry;
    with status 400 and "ASR failed: " followed by [str(e)] when the
    recognition of the upload raises an instance [e] of [Exception]; with
    status 400 and "No speech detected in audio." when it returns the empty
    text. An exception that is not an instance of [Exception] is raised as
    it is. The content type given to the recognition is the one of the
    upload, "audio/wav" when it has none. *)
Theorem audio_request_rejected (N : Z) asr_model tts_model (text : option string)
    (upload : UploadFile) w :
  Py.all_space (Py.opt_or text "") = true ->
  let content_type := Py.opt_or (uf_content_type upload) "audio/wav" in
  let r := serve (start_game_stream N asr_model tts_model text (Some upload)) w in
  (ASR_MODELS !! asr_model = None ->
     r = mkOut [] (Raised (HTTPException 400
                             ("Unknown ASR model: " +:+ asr_model))) w) /\
  (forall tr0 asr w1 res w2,
     _get_asr asr_model w = mkOut tr0 (Normal asr) w1 ->
     transcribe asr (uf_contents upload) content_type w1 = (res, w2) ->
     (forall e, res = Err e -> isinstance_Exception e = true ->
        r = mkOut (tr0 ++ [Transcribe (uf_contents upload) content_type res])
              (Raised (HTTPException 400 ("ASR failed: " +:+ str e))) w2) /\
     (forall e, res = Err e -> isinstance_Exception e = false ->
        r = mkOut (tr0 ++ [Transcribe (uf_contents upload) content_type res])
              (Raised e) w2) /\
     (res = Ok EmptyString ->
        r = mkOut (tr0 ++ [Transcribe (uf_contents upload) content_type res])
              (Raised (HTTPException 400 "No speech detected in audio.")) w2)).
Proof.
  intros Hblank content_type r. apply strip_all_space in Hblank.
  split.
  - intros Hk. subst r. unfold serve. apply bind_raised.
    unfold start_game_stream. rewrite Hblank. cbn [Py.truthy].
    rewrite (bind_normal _ _ w [] tt w) by reflexivity.
    rewrite (bind_normal _ _ w [] tt w) by reflexivity.
    rewrite (bind_raised _ _ w []
               (HTTPException 400 ("Unknown ASR model: " +:+ asr_model)) w);
      [reflexivity|].
    apply bind_raised. by apply get_asr_unknown.
  - intros tr0 asr w1 res w2 Hget Htr.
    pose proof (start_audio_cases N asr_model tts_model text upload w tr0 asr w1
                  res w2 Hblank Hget Htr) as Hstart. cbn zeta in Hstart.
    subst r content_type. unfold serve.
    split; [|split].
    + intros e -> He. rewrite He in Hstart. by apply bind_raised.
    + intros e -> He. rewrite He in Hstart. by apply bind_raised.
    + intros ->. cbn [Py.truthy] in Hstart. by apply bind_raised.
Qed.

(** X9: when the recognition of the upload returns a text that is not
    empty, serving the request is the endpoint's instantiation and call
    followed by the run of the generator on that text from the world they
    left; the run instantiates the recognition adapter a second time. *)
Theorem audio_request_served (N : Z) asr_model tts_model (text : option string)
    (upload : UploadFile) w tr0 asr w1 t w2 :
  Py.all_space (Py.opt_or text "") = true ->
  let content_type := Py.opt_or (uf_content_type upload) "audio/wav" in
  _get_asr asr_model w = mkOut tr0 (Normal asr) w1 ->
  transcribe asr (uf_contents upload) content_type w1 = (Ok t, w2) ->
  Py.truthy t = true ->
  let run := _run_telephone_stream N asr_model tts_model t None w2 in
  serve (start_game_stream N asr_model tts_model text (Some upload)) w
  = mkOut (tr0 ++ [Transcribe (uf_contents upload) content_type (Ok t)]
           ++ trace run) (outcome run) (world run) /\
  tr0 = [Instantiate "ASR_MODELS" asr_model true] /\
  exists ok, trace run !! 0%nat = Some (Instantiate "ASR_MODELS" asr_model ok).
Proof.
  intros Hblank content_type Hget Htr Ht run. apply strip_all_space in Hblank.
  pose proof (start_audio_cases N asr_model tts_model text upload w tr0 asr w1
                (Ok t) w2 Hblank Hget Htr) as Hstart.
  cbv beta iota zeta in Hstart. rewrite Ht in Hstart.
  assert (exists cls, ASR_MODELS !! asr_model = Some cls) as [cls Hk].
  { destruct (ASR_MODELS !! asr_model) as [cls|] eqn:Hk; [by eexists|].
    rewrite get_asr_unknown in Hget by done. discriminate Hget. }
  split; [|split].
  - unfold serve. rewrite (bind_normal _ _ _ _ _ _ Hstart).
    cbn [body_iterator]. by rewrite <- app_assoc.
  - rewrite (get_asr_known _ _ w Hk) in Hget.
    destruct (cls w) as [[a|e] w']; by simplify_eq.
  - apply run_instantiates_asr. by eexists.
Qed.


End EndpointTheorems.

(** ** More on the loop *)

(** A loop whose first failing call is a recognition: it is the call
    number [2 * j + 1], of step [j]; the events of the steps before and the
    [tts] event of step [j] precede the failure, and step [j] has no [stt]
    event. *)
Lemma chain_stt_failure k n text tr o :
  chain k n text tr o ->
  forall oks a c e,
  backend_calls tr = oks ++ [Transcribe a c (Err e)] ->
  forallb action_ok oks = true ->
  exists (j : nat) pre t,
    length oks = (2 * j + 1)%nat /\ (j < n)%nat /\
    length pre = (2 * j)%nat /\
    Forall (fun d => is_terminal d = false) pre /\
    (forall t', stt_event (k + Z.of_nat j) t' ∉ events tr) /\
    if isinstance_Exception e
    then events tr = pre ++ [tts_event (k + Z.of_nat j) t (Base64.b64encode a);
                             error_event "stt" (k + Z.of_nat j) (str e)]
         /\ o = Returned
    else events tr = pre ++ [tts_event (k + Z.of_nat j) t (Base64.b64encode a)]
         /\ o = Raised e.
Proof.
  induction 1 as [k text | k n text audio text' tr o Hc IH
                 | k n text e0 He | k n text e0 He
                 | k n text audio e0 He | k n text audio e0 He];
    intros oks a c e Hcalls Hok; cbn [backend_calls] in Hcalls.
  - by destruct oks.
  - destruct oks as [|x [|y oks]]; [by destruct (backend_calls tr)|done|].
    injection Hcalls as <- <- Hcalls.
    cbn [forallb action_ok is_Ok andb] in Hok.
    destruct (IH oks a c e Hcalls Hok)
      as (j & pre & t & Hlen & Hj & Hpre & Hnt & Hno & Hev).
    exists (S j), (tts_event k text (Base64.b64encode audio)
                   :: stt_event k text' :: pre), t.
    replace (k + Z.of_nat (S j))%Z with (k + 1 + Z.of_nat j)%Z by lia.
    split; [simpl; lia|]. split; [lia|]. split; [simpl; lia|].
    split; [by repeat constructor|]. split.
    + intros t' Hin. cbn [events] in Hin.
      apply elem_of_cons in Hin as [Hin|Hin]; [discriminate Hin|].
      apply elem_of_cons in Hin as [Hin|Hin]; [|by apply (Hno t')].
      injection Hin as Hin _. lia.
    + cbn [events]. destruct (isinstance_Exception e); destruct Hev as [-> ->]; done.
  - destruct oks as [|x oks]; [done|by destruct oks].
  - destruct oks as [|x oks]; [done|by destruct oks].
  - destruct oks as [|x [|y oks]]; [done| |by destruct oks].
    injection Hcalls as <- <- <- <-. exists 0%nat, [], text.
    rewrite Z.add_0_r, He. cbn [events].
    split; [done|]. split; [lia|]. split; [done|]. split; [done|].
    split; [|done]. intros t' Hin.
    apply elem_of_cons in Hin as [Hin|Hin]; [discriminate Hin|].
    apply list_elem_of_singleton in Hin. discriminate Hin.
  - destruct oks as [|x [|y oks]]; [done| |by destruct oks].
    injection Hcalls as <- <- <- <-. exists 0%nat, [], text.
    rewrite Z.add_0_r, He. cbn [events].
    split; [done|]. split; [lia|]. split; [done|]. split; [done|].
    split; [|done]. intros t' Hin.
    apply list_elem_of_singleton in Hin. discriminate Hin.
Qed.

(** The loop emits at most two events and makes at most two calls per
    child. *)
Lemma chain_bounds k n text tr o :
  chain k n text tr o ->
  (length (events tr) <= 2 * n)%nat /\ (length (backend_calls tr) <= 2 * n)%nat.
Proof.
  induction 1; cbn [events backend_calls length]; lia.
Qed.

(** The calls of the loop: the first is the synthesis of the text passed
    in; a synthesis that succeeds is followed by the recognition of the
    bytes it returned, as "audio/wav"; a recognition that succeeds is
    followed, if by anything, by the synthesis of the text it returned; a
    call that fails is the last one. *)
Lemma chain_calls k n text tr o :
  chain k n text tr o ->
  (forall c, backend_calls tr !! 0%nat = Some c ->
     exists r, c = Synthesize text r) /\
  (forall i t a, backend_calls tr !! i = Some (Synthesize t (Ok a)) ->
     exists r, backend_calls tr !! S i = Some (Transcribe a "audio/wav" r)) /\
  (forall i a c t x, backend_calls tr !! i = Some (Transcribe a c (Ok t)) ->
     backend_calls tr !! S i = Some x -> exists r, x = Synthesize t r) /\
  (forall i x, backend_calls tr !! i = Some x -> action_ok x = false ->
     backend_calls tr !! S i = None).
Proof.
  induction 1 as [k text | k n text audio text' tr o Hc IH
                 | k n text e0 He | k n text e0 He
                 | k n text audio e0 He | k n text audio e0 He];
    cbn [backend_calls].
  - repeat split; intros; simplify_eq/=.
  - destruct IH as (IH0 & IH1 & IH2 & IH3).
    split; [intros c [= <-]; by eexists|].
    split; [|split].
    + intros [|[|i]] t a Hi; cbn in Hi |- *; simplify_eq; [by eexists|].
      by apply (IH1 i t a).
    + intros [|[|i]] a c t x Hi Hx; cbn in Hi, Hx; simplify_eq.
      * by apply IH0.
      * by apply (IH2 i a c t x).
    + intros [|[|i]] x Hi Hx; cbn in Hi |- *; simplify_eq/=.
      by apply (IH3 i x).
  - split; [intros c [= <-]; by eexists|].
    split; [|split]; [intros [|i] ?? Hi|intros [|i] ???? Hi|intros [|i] ? Hi ?];
      cbn in Hi |- *; by simplify_eq.
  - split; [intros c [= <-]; by eexists|].
    split; [|split]; [intros [|i] ?? Hi|intros [|i] ???? Hi|intros [|i] ? Hi ?];
      cbn in Hi |- *; by simplify_eq.
  - split; [intros c [= <-]; by eexists|].
    split; [|split];
      [intros [|[|i]] ?? Hi|intros [|[|i]] ???? Hi|intros [|[|i]] ? Hi ?];
      cbn in Hi |- *; simplify_eq/=; by eauto.
  - split; [intros c [= <-]; by eexists|].
    split; [|split];
      [intros [|[|i]] ?? Hi|intros [|[|i]] ???? Hi|intros [|[|i]] ? Hi ?];
      cbn in Hi |- *; simplify_eq/=; by eauto.
Qed.

(** The events of the loop and of what follows it: the first one belongs
    to the child the loop starts with and carries the text passed in, or is
    the [done] event of that text; after the [stt] event of a child comes
    the [tts] or the [error] event of the next child, or the [done] event,
    with the text just heard; after a [tts] event comes the [stt] or the
    [error] event of the same child. *)
Lemma chain_events_text k n text tr o :
  chain k n text tr o ->
  (forall d, events (tr ++ after_loop o) !! 0%nat = Some d ->
     (exists a, d = tts_event k text a) \/
     (exists m, d = error_event "tts" k m) \/ d = done_event text) /\
  (forall i j t d,
     events (tr ++ after_loop o) !! i = Some (stt_event j t) ->
     events (tr ++ after_loop o) !! S i = Some d ->
     (exists a, d = tts_event (j + 1) t a) \/
     (exists m, d = error_event "tts" (j + 1) m) \/ d = done_event t) /\
  (forall i j t a d,
     events (tr ++ after_loop o) !! i = Some (tts_event j t a) ->
     events (tr ++ after_loop o) !! S i = Some d ->
     (exists t', d = stt_event j t') \/ (exists m, d = error_event "stt" j m)).
Proof.
  induction 1 as [k text | k n text audio text' tr o Hc IH
                 | k n text e0 He | k n text e0 He
                 | k n text audio e0 He | k n text audio e0 He];
    cbn [app after_loop events].
  - split; [intros d [= <-]; by right; right|].
    split; [intros [|i] ??? Hi Hd|intros [|i] ???? Hi Hd]; by simplify_eq/=.
  - destruct IH as (IH0 & IH1 & IH2).
    split; [intros d [= <-]; left; by eexists|]. split.
    + intros [|[|i]] j t d Hi Hd; cbn in Hi, Hd; simplify_eq.
      * by apply IH0.
      * by apply (IH1 i).
    + intros [|[|i]] j t a d Hi Hd; cbn in Hi, Hd; simplify_eq.
      * left. by eexists.
      * by apply (IH2 i j t a).
  - split; [intros d [= <-]; right; left; by eexists|].
    split; [intros [|i] ??? Hi Hd|intros [|i] ???? Hi Hd]; by simplify_eq/=.
  - split; [by intros d [=]|].
    split; [intros [|i] ??? Hi Hd|intros [|i] ???? Hi Hd]; by simplify_eq/=.
  - split; [intros d [= <-]; left; by eexists|].
    split; [intros [|[|i]] ??? Hi Hd|intros [|[|i]] ???? Hi Hd];
      cbn in Hi, Hd; simplify_eq. right. by eexists.
  - split; [intros d [= <-]; left; by eexists|].
    split; [intros [|[|i]] ??? Hi Hd|intros [|[|i]] ???? Hi Hd];
      cbn in Hi, Hd; by simplify_eq.
Qed.

(** Every event of the loop and of what follows it is one of the four
    dictionaries of the generator. *)
Lemma chain_event_forms k n text tr o :
  chain k n text tr o ->
  forall d, d ∈ events (tr ++ after_loop o) ->
    (exists j t a, d = tts_event j t a) \/ (exists j t, d = stt_event j t) \/
    (exists step j m, d = error_event step j m) \/ (exists t, d = done_event t).
Proof.
  induction 1 as [k text | k n text audio text' tr o Hc IH
                 | k n text e0 He | k n text e0 He
                 | k n text audio e0 He | k n text audio e0 He];
    cbn [app after_loop events]; intros d Hd;
    repeat (apply elem_of_cons in Hd as [->|Hd]);
    try (by apply elem_of_nil in Hd); eauto 10.
Qed.

(** An event of the generator whose fields read as those of an [stt] event
    is that [stt] event. *)
Lemma stt_event_of_fields d j t :
  (exists j' t' a, d = tts_event j' t' a) \/ (exists j' t', d = stt_event j' t') \/
  (exists step j' m, d = error_event step j' m) \/ (exists t', d = done_event t') ->
  event_type d = Some (JStr "stt") ->
  dict_get d "child_index" = Some (JInt j) ->
  dict_get d "text" = Some (JStr t) ->
  d = stt_event j t.
Proof.
  intros [(j' & t' & a & ->)|[(j' & t' & ->)|[(step & j' & m & ->)|[t' ->]]]]
    Hty Hci Htx; cbn in Hty, Hci, Htx; by simplify_eq.
Qed.

(** The same for a [tts] event. *)
Lemma tts_event_of_fields d j :
  (exists j' t' a, d = tts_event j' t' a) \/ (exists j' t', d = stt_event j' t') \/
  (exists step j' m, d = error_event step j' m) \/ (exists t', d = done_event t') ->
  event_type d = Some (JStr "tts") ->
  dict_get d "child_index" = Some (JInt j) ->
  exists t a, d = tts_event j t a.
Proof.
  intros [(j' & t' & a & ->)|[(j' & t' & ->)|[(step & j' & m & ->)|[t' ->]]]]
    Hty Hci; cbn in Hty, Hci; simplify_eq. by eexists _, _.
Qed.

Section MoreFacts.
Context `{Models}.

(** X1: in a run whose first failing call is a recognition, all calls
    before it having succeeded, the failure is at a step k < N after 2k + 1
    successful calls; no event of type "stt" has child_index k; the event
    at position 2k has type "tts" and child_index k, and its [audio_base64]
    field is the base64 text of the audio the recognition was given. When
    the exception is an instance of [Exception], these 2k + 1 events
    precede the last event, which has type "error", step "stt",
    child_index k and message [str(e)], and the generator returns;
    otherwise they are the whole stream and the exception leaves the
    generator. *)
Theorem stt_failure_events (N : Z) asr_model tts_model initial_text voice w
    oks audio content_type e :
  let r := _run_telephone_stream N asr_model tts_model initial_text voice w in
  backend_calls (trace r) = oks ++ [Transcribe audio content_type (Err e)] ->
  forallb action_ok oks = true ->
  exists k : nat,
    length oks = (2 * k + 1)%nat /\ (Z.of_nat k < N)%Z /\
    (forall t, stt_event (Z.of_nat k) t ∉ events (trace r)) /\
    (forall d, d ∈ events (trace r) -> event_type d = Some (JStr "stt") ->
       dict_get d "child_index" <> Some (JInt (Z.of_nat k))) /\
    (exists d,
       events (trace r) !! (2 * k)%nat = Some d /\
       event_type d = Some (JStr "tts") /\
       dict_get d "child_index" = Some (JInt (Z.of_nat k)) /\
       dict_get d "audio_base64" = Some (JStr (Base64.b64encode audio)) /\
       exists t, d = tts_event (Z.of_nat k) t (Base64.b64encode audio)) /\
    (isinstance_Exception e = true ->
       events_before_error (events (trace r)) = Some (2 * k + 1)%nat /\
       length (events (trace r)) = (2 * k + 2)%nat /\
       (exists d,
          last (events (trace r)) = Some d /\
          event_type d = Some (JStr "error") /\
          dict_get d "step" = Some (JStr "stt") /\
          dict_get d "child_index" = Some (JInt (Z.of_nat k)) /\
          dict_get d "message" = Some (JStr (str e)) /\
          d = error_event "stt" (Z.of_nat k) (str e)) /\
       outcome r = Returned) /\
    (isinstance_Exception e = false ->
       length (events (trace r)) = (2 * k + 1)%nat /\
       terminal_count (events (trace r)) = 0%nat /\
       outcome r = Raised e).
Proof.
  intros r Hcalls Hok. subst r.
  destruct (run_cases N asr_model tts_model initial_text voice w)
    as [(_ & Hnone & _)|(tr & o & _ & _ & Hc & Htr & Ho)]; cbn zeta in *.
  { rewrite Hnone in Hcalls. by destruct oks. }
  rewrite Htr in Hcalls |- *. rewrite Ho.
  cbn [backend_calls events] in Hcalls |- *.
  rewrite backend_calls_app, backend_calls_after_loop, app_nil_r in Hcalls.
  destruct (chain_stt_failure _ _ _ _ _ Hc oks audio content_type e Hcalls Hok)
    as (k & pre & t & Hlen & Hk & Hpre & Hnt & Hno & Hev).
  rewrite Z.add_0_l in Hno, Hev. rewrite events_app.
  exists k. split; [done|]. split; [lia|].
  pose proof (chain_event_forms _ _ _ _ _ Hc) as Hforms.
  assert (o = Returned \/ o = Raised e) as Hends
    by (destruct (isinstance_Exception e); destruct Hev as [_ ->]; eauto).
  assert (events (after_loop o) = []) as Hafter
    by (by destruct Hends as [-> | ->]).
  rewrite events_app, Hafter, app_nil_r in Hforms. rewrite Hafter, app_nil_r.
  split; [done|]. split.
  { intros d Hin Hty Hci. destruct (dict_get d "text") as [[t0|z]|] eqn:Htx.
    - apply (Hno t0).
      by rewrite <- (stt_event_of_fields d (Z.of_nat k) t0 (Hforms d Hin) Hty Hci Htx).
    - destruct (Hforms d Hin)
        as [(j' & t' & a & ->)|[(j' & t' & ->)|[(step & j' & m & ->)|[t' ->]]]];
        cbn in Hty, Htx; by simplify_eq.
    - destruct (Hforms d Hin)
        as [(j' & t' & a & ->)|[(j' & t' & ->)|[(step & j' & m & ->)|[t' ->]]]];
        cbn in Hty, Htx; by simplify_eq. }
  split.
  { exists (tts_event (Z.of_nat k) t (Base64.b64encode audio)).
    split; [|do 3 (split; [reflexivity|]); by exists t].
    destruct (isinstance_Exception e); destruct Hev as [-> _];
      rewrite lookup_app_r by lia;
      by replace (2 * k - length pre)%nat with 0%nat by lia. }
  clear Hforms Hends Hafter.
  destruct (isinstance_Exception e); destruct Hev as [Hev ->];
    cbn [after_outcome].
  - split; [|done]. intros _. rewrite Hev.
    assert (Forall (fun d => is_terminal d = false)
              (pre ++ [tts_event (Z.of_nat k) t (Base64.b64encode audio)]))
      as Hnt' by (apply Forall_app; split; [done|by repeat constructor]).
    replace (pre ++ [tts_event (Z.of_nat k) t (Base64.b64encode audio);
                     error_event "stt" (Z.of_nat k) (str e)])
      with ((pre ++ [tts_event (Z.of_nat k) t (Base64.b64encode audio)])
            ++ [error_event "stt" (Z.of_nat k) (str e)])
      by (by rewrite <- app_assoc).
    rewrite events_before_error_snoc, last_snoc, !length_app by done.
    cbn [length]. split; [f_equal; lia|]. split; [lia|]. split; [|done].
    exists (error_event "stt" (Z.of_nat k) (str e)). by repeat split.
  - split; [done|]. intros _. rewrite Hev.
    rewrite length_app. cbn [length]. split; [lia|]. split; [|done].
    apply terminal_count_none, Forall_app. split; [done|by repeat constructor].
Qed.

(** X2: the text is handed from child to child, as read from the fields
    of the events. The first event of a run has type "tts", child_index 0
    and the stripped initial text as [text]; or type "error", step "tts"
    and child_index 0; or type "done" and the stripped initial text as
    [final_text]. The event after an event of type "stt" with child_index j
    and text t has type "tts", child_index j + 1 and the same t as [text],
    whatever t is; or type "error", step "tts" and child_index j + 1; or
    type "done" and t as [final_text]. The event after an event of type
    "tts" with child_index j has type "stt" and child_index j, or type
    "error", step "stt" and child_index j. *)
Theorem text_passed_on (N : Z) asr_model tts_model initial_text voice w :
  let r := _run_telephone_stream N asr_model tts_model initial_text voice w in
  (forall d, events (trace r) !! 0%nat = Some d ->
     (event_type d = Some (JStr "tts") /\
      dict_get d "child_index" = Some (JInt 0) /\
      dict_get d "text" = Some (JStr (Py.strip initial_text))) \/
     (event_type d = Some (JStr "error") /\
      dict_get d "step" = Some (JStr "tts") /\
      dict_get d "child_index" = Some (JInt 0)) \/
     (event_type d = Some (JStr "done") /\
      dict_get d "final_text" = Some (JStr (Py.strip initial_text)))) /\
  (forall i j t d0 d,
     events (trace r) !! i = Some d0 ->
     event_type d0 = Some (JStr "stt") ->
     dict_get d0 "child_index" = Some (JInt j) ->
     dict_get d0 "text" = Some (JStr t) ->
     events (trace r) !! S i = Some d ->
     (event_type d = Some (JStr "tts") /\
      dict_get d "child_index" = Some (JInt (j + 1)) /\
      dict_get d "text" = Some (JStr t)) \/
     (event_type d = Some (JStr "error") /\
      dict_get d "step" = Some (JStr "tts") /\
      dict_get d "child_index" = Some (JInt (j + 1))) \/
     (event_type d = Some (JStr "done") /\
      dict_get d "final_text" = Some (JStr t))) /\
  (forall i j d0 d,
     events (trace r) !! i = Some d0 ->
     event_type d0 = Some (JStr "tts") ->
     dict_get d0 "child_index" = Some (JInt j) ->
     events (trace r) !! S i = Some d ->
     (event_type d = Some (JStr "stt") /\
      dict_get d "child_index" = Some (JInt j)) \/
     (event_type d = Some (JStr "error") /\
      dict_get d "step" = Some (JStr "stt") /\
      dict_get d "child_index" = Some (JInt j))).
Proof.
  intros r. subst r.
  destruct (run_cases N asr_model tts_model initial_text voice w)
    as [(Hnone & _)|(tr & o & _ & _ & Hc & Htr & Ho)]; cbn zeta in *.
  { rewrite Hnone. split; [|split]; intros; simplify_eq/=. }
  rewrite Htr. cbn [events].
  pose proof (chain_event_forms _ _ _ _ _ Hc) as Hforms.
  destruct (chain_events_text _ _ _ _ _ Hc) as (H0 & H1 & H2).
  split; [|split].
  - intros d Hd.
    destruct (H0 d Hd) as [[a ->]|[[m ->]| ->]];
      [left|right; left|right; right]; by repeat split.
  - intros i j t d0 d Hi Hty Hci Htx Hd.
    pose proof (stt_event_of_fields d0 j t
                  (Hforms d0 (list_elem_of_lookup_2 _ _ _ Hi)) Hty Hci Htx) as ->.
    destruct (H1 i j t d Hi Hd) as [[a ->]|[[m ->]| ->]];
      [left|right; left|right; right]; by repeat split.
  - intros i j d0 d Hi Hty Hci Hd.
    destruct (tts_event_of_fields d0 j
                (Hforms d0 (list_elem_of_lookup_2 _ _ _ Hi)) Hty Hci)
      as (t & a & ->).
    destruct (H2 i j t a d Hi Hd) as [[t' ->]|[m ->]];
      [left|right]; by repeat split.
Qed.

(** X3: the calls of a run alternate. The first one is the synthesis of
    the stripped initial text; a synthesis that succeeds is followed by the
    recognition of exactly the bytes it returned, declared as "audio/wav";
    a recognition that succeeds is followed, if by any call, by the
    synthesis of the text it returned; after a call that fails no call is
    made (no retry). *)
Theorem calls_in_order (N : Z) asr_model tts_model initial_text voice w :
  let r := _run_telephone_stream N asr_model tts_model initial_text voice w in
  (forall c, backend_calls (trace r) !! 0%nat = Some c ->
     exists res, c = Synthesize (Py.strip initial_text) res) /\
  (forall i t a, backend_calls (trace r) !! i = Some (Synthesize t (Ok a)) ->
     exists res, backend_calls (trace r) !! S i
                 = Some (Transcribe a "audio/wav" res)) /\
  (forall i a c t x,
     backend_calls (trace r) !! i = Some (Transcribe a c (Ok t)) ->
     backend_calls (trace r) !! S i = Some x -> exists res, x = Synthesize t res) /\
  (forall i x, backend_calls (trace r) !! i = Some x -> action_ok x = false ->
     backend_calls (trace r) !! S i = None).
Proof.
  intros r. subst r.
  destruct (run_cases N asr_model tts_model initial_text voice w)
    as [(_ & Hnone & _)|(tr & o & _ & _ & Hc & Htr & Ho)]; cbn zeta in *.
  { rewrite Hnone. repeat split; intros; simplify_eq/=. }
  rewrite Htr. cbn [backend_calls].
  rewrite backend_calls_app, backend_calls_after_loop, app_nil_r.
  by apply (chain_calls _ _ _ _ _ Hc).
Qed.

(** X4: a run on N children emits at most 2N + 1 events and makes at most
    2N calls of [synthesize] and [transcribe] (N counted as 0 when
    negative), whatever the adapters do. *)
Theorem stream_bounds (N : Z) asr_model tts_model initial_text voice w :
  let r := _run_telephone_stream N asr_model tts_model initial_text voice w in
  (length (events (trace r)) <= 2 * Z.to_nat N + 1)%nat /\
  (length (backend_calls (trace r)) <= 2 * Z.to_nat N)%nat.
Proof.
  intros r. subst r.
  destruct (run_cases N asr_model tts_model initial_text voice w)
    as [(Hev & Hnone & _)|(tr & o & _ & _ & Hc & Htr & Ho)]; cbn zeta in *.
  { rewrite Hev, Hnone. simpl. lia. }
  rewrite Htr. cbn [events backend_calls].
  rewrite events_app, backend_calls_app, backend_calls_after_loop, app_nil_r,
    length_app.
  destruct (chain_bounds _ _ _ _ _ Hc) as [He Hb].
  split; [|done]. destruct o; cbn [after_loop events length]; lia.
Qed.

End MoreFacts.

Section ServiceFacts.
Context `{Libraries}.

Lemma loads_app cs1 cs2 : loads (cs1 ++ cs2) = (loads cs1 + loads cs2)%nat.
Proof.
  induction cs1 as [|c cs1 IH]; [done|]. destruct c; simpl; by rewrite ?IH.
Qed.

(** X12: [LocalWhisperASRAdapter.transcribe] leaves no file behind. When
    the temporary name is new, as [NamedTemporaryFile] makes it, the files
    after the call are the files before it, whether the model returns or
    raises; the environment and the objects are untouched; the model is
    called once, on a file that holds exactly the bytes given, named with
    suffix ".wav" when the content type contains "wav" and ".mp3"
    otherwise; the result is the stripped text of the model, or its
    exception. *)
Theorem whisper_transcribe_cleans_up (model : WhisperModel)
    (audio_bytes : list byte) (content_type : string) (w : SWorld) :
  let suffix := if Str.contains "wav" content_type then ".wav" else ".mp3" in
  let name := mkstemp (fs w) suffix in
  fs w !! name = None ->
  let r := LocalWhisper_transcribe model audio_bytes content_type w in
  fs r.2 = fs w /\
  environ r.2 = environ w /\
  heap r.2 = heap w /\
  calls r.2 = calls w ++ [WhisperTranscribe name (Some audio_bytes)] /\
  (r.1, ext r.2)
  = match whisper_transcribe model name (Some audio_bytes) (ext w) with
    | (Ok result, x) => (Ok (Py.strip (Py.opt_or result "")), x)
    | (Err e, x) => (Err e, x)
    end.
Proof.
  intros suffix name Hfresh r. subst r.
  unfold LocalWhisper_transcribe, sbind, finally, NamedTemporaryFile, f_write,
    os_unlink, sret, lib, set_fs.
  fold suffix. fold name. clearbody name. clear suffix.
  cbn [fs ext environ heap calls].
  rewrite (lookup_insert_eq (fs w) name). cbn [default app].
  rewrite insert_insert_eq.
  match goal with |- context [whisper_transcribe model name ?o (ext w)] => assert (o = Some audio_bytes) as E1 by apply lookup_insert_eq; rewrite E1 end.
  destruct (whisper_transcribe model name (Some audio_bytes) (ext w))
    as [[result|e] x]; cbn [fs ext environ heap calls];
    rewrite (lookup_insert_eq (fs w) name); cbn [fst snd fs ext environ heap calls];
    rewrite delete_insert_eq, delete_id by done; done.
Qed.

(** X13: a text returned by [LocalWhisperASRAdapter.transcribe] is
    stripped: stripping it again changes nothing, and if it is made of
    whitespace only it is the empty text. *)
Theorem whisper_text_is_stripped (model : WhisperModel)
    (audio_bytes : list byte) (content_type : string) (w : SWorld) t :
  (LocalWhisper_transcribe model audio_bytes content_type w).1 = Ok t ->
  Py.strip t = t /\
  (Py.all_space t = true -> t = EmptyString).
Proof.
  intros Hr.
  assert (exists result, t = Py.strip (Py.opt_or result "")) as [result ->].
  { revert Hr.
    unfold LocalWhisper_transcribe, sbind, finally, NamedTemporaryFile, f_write,
      os_unlink, sret, lib, set_fs.
    cbn [fs ext environ heap calls].
    destruct (whisper_transcribe _ _ _ _) as [[result|e] x];
      cbn [fs ext environ heap calls];
      destruct (_ !! _); cbn [fst]; intros Hr; simplify_eq; by eexists. }
  split; [apply strip_idem|].
  intros Hs. apply strip_all_space in Hs. by rewrite strip_idem in Hs.
Qed.

(** What [_load_model] does to an object. *)
Lemma load_model_cases self w obj :
  heap w !! self = Some obj ->
  match _model obj with
  | Some model => _load_model self w = (Ok model, w)
  | None =>
      match from_pretrained (_device obj) (ext w) with
      | (Ok model, x) =>
          _load_model self w
          = (Ok model,
             {| ext := x; fs := fs w; environ := environ w;
                heap := <[self := {| _device := _device obj;
                                     _audio_prompt_path := _audio_prompt_path obj;
                                     _model := Some model |}]> (heap w);
                calls := calls w ++ [FromPretrained (_device obj)] |})
      | (Err e, x) =>
          _load_model self w
          = (Err e,
             {| ext := x; fs := fs w; environ := environ w; heap := heap w;
                calls := calls w ++ [FromPretrained (_device obj)] |})
      end
  end.
Proof.
  intros Hobj. unfold _load_model. rewrite Hobj.
  destruct (_model obj) as [model|]; [done|].
  unfold sbind, lib, set_heap.
  by destruct (from_pretrained (_device obj) (ext w)) as [[model|e] x].
Qed.

(** [synthesize] on an object that holds its model: no load, the objects
    and the files stay as they are. *)
Lemma synthesize_loaded self text w obj model :
  heap w !! self = Some obj ->
  _model obj = Some model ->
  let r := Chatterbox_synthesize self text w in
  heap r.2 = heap w /\ fs r.2 = fs w /\ environ r.2 = environ w /\
  loads (calls r.2) = loads (calls w).
Proof.
  intros Hobj Hm r. subst r.
  pose proof (load_model_cases self w obj Hobj) as Hl. rewrite Hm in Hl.
  unfold Chatterbox_synthesize, sbind, lib. rewrite Hl.
  destruct (generate _ _ _ _) as [[wav|e] x]; cbn [ext fs heap calls environ].
  - destruct (torchaudio_save _ _ _) as [[b|e] x'];
      cbn [snd ext fs heap calls environ]; rewrite !loads_app; cbn;
      (repeat split; lia).
  - cbn [snd ext fs heap calls environ]. rewrite loads_app. cbn.
    repeat split; lia.
Qed.

(** [synthesize] on an object without model: [from_pretrained] is called
    once; if it succeeds the object keeps the model, whatever [generate]
    does afterwards; if it raises, the exception is the result, nothing is
    generated and the object stays without model. *)
Lemma synthesize_unloaded self text w obj :
  heap w !! self = Some obj ->
  _model obj = None ->
  let r := Chatterbox_synthesize self text w in
  loads (calls r.2) = S (loads (calls w)) /\
  fs r.2 = fs w /\
  match from_pretrained (_device obj) (ext w) with
  | (Ok model, _) =>
      heap r.2 = <[self := {| _device := _device obj;
                              _audio_prompt_path := _audio_prompt_path obj;
                              _model := Some model |}]> (heap w)
  | (Err e, x) =>
      r = (Err e, {| ext := x; fs := fs w; environ := environ w; heap := heap w;
                     calls := calls w ++ [FromPretrained (_device obj)] |})
  end.
Proof.
  intros Hobj Hm r. subst r.
  pose proof (load_model_cases self w obj Hobj) as Hl. rewrite Hm in Hl.
  unfold Chatterbox_synthesize, sbind, lib.
  destruct (from_pretrained (_device obj) (ext w)) as [[model|e] x];
    rewrite Hl.
  - cbn [ext fs heap calls environ].
    destruct (generate _ _ _ _) as [[wav|e] x']; cbn [ext fs heap calls environ].
    + destruct (torchaudio_save _ _ _) as [[b|e] x''];
        cbn [snd ext fs heap calls environ]; rewrite !loads_app; cbn;
        (repeat split; lia).
    + cbn [snd ext fs heap calls environ]. rewrite !loads_app. cbn.
      repeat split; lia.
  - cbn [snd ext fs heap calls environ]. rewrite loads_app. cbn.
    repeat split; lia.
Qed.

(** X14: a [ChatterboxTTSAdapter] loads its model lazily and once: a
    first [synthesize] that returns bytes has called [from_pretrained] at
    most once, and a further [synthesize] on the same object calls it no
    more and leaves the objects as they are. *)
Theorem chatterbox_loads_once self (text1 text2 : string) w :
  is_Some (heap w !! self) ->
  let r1 := Chatterbox_synthesize self text1 w in
  is_Ok r1.1 = true ->
  let r2 := Chatterbox_synthesize self text2 r1.2 in
  (loads (calls r1.2) <= S (loads (calls w)))%nat /\
  loads (calls r2.2) = loads (calls r1.2) /\
  heap r2.2 = heap r1.2.
Proof.
  intros [obj Hobj] r1 Hok r2. subst r2.
  destruct (_model obj) as [model|] eqn:Hm.
  - destruct (synthesize_loaded self text1 w obj model Hobj Hm)
      as (Hh & _ & _ & Hl). fold r1 in Hh, Hl.
    assert (heap r1.2 !! self = Some obj) as Hobj1 by (by rewrite Hh).
    destruct (synthesize_loaded self text2 r1.2 obj model Hobj1 Hm)
      as (Hh2 & _ & _ & Hl2).
    split; [lia|]. done.
  - destruct (synthesize_unloaded self text1 w obj Hobj Hm) as (Hl & _ & Hcase).
    fold r1 in Hl, Hcase.
    destruct (from_pretrained (_device obj) (ext w)) as [[model|e] x].
    + assert (heap r1.2 !! self
              = Some {| _device := _device obj;
                        _audio_prompt_path := _audio_prompt_path obj;
                        _model := Some model |}) as Hobj1
        by (rewrite Hcase; apply lookup_insert_eq).
      destruct (synthesize_loaded self text2 r1.2 _ model Hobj1 eq_refl)
        as (Hh2 & _ & _ & Hl2).
      split; [lia|]. done.
    + rewrite Hcase in Hok. discriminate Hok.
Qed.

(** X15: when [from_pretrained] raises in the [synthesize] of an object
    without model, [synthesize] raises that exception, nothing is generated,
    the object stays without model, and the next [synthesize] on it calls
    [from_pretrained] again. *)
Theorem chatterbox_load_failure_retried self (text1 text2 : string) w obj e x :
  heap w !! self = Some obj ->
  _model obj = None ->
  from_pretrained (_device obj) (ext w) = (Err e, x) ->
  let r1 := Chatterbox_synthesize self text1 w in
  r1.1 = Err e /\
  heap r1.2 = heap w /\
  calls r1.2 = calls w ++ [FromPretrained (_device obj)] /\
  loads (calls (Chatterbox_synthesize self text2 r1.2).2)
  = S (loads (calls r1.2)).
Proof.
  intros Hobj Hm Hload r1.
  destruct (synthesize_unloaded self text1 w obj Hobj Hm) as (_ & _ & Hcase).
  fold r1 in Hcase. rewrite Hload in Hcase. rewrite Hcase. cbn [fst snd heap calls].
  split; [done|]. split; [done|]. split; [done|].
  by destruct (synthesize_unloaded self text2
                 {| ext := x; fs := fs w; environ := environ w; heap := heap w;
                    calls := calls w ++ [FromPretrained (_device obj)] |}
                 obj Hobj Hm) as (Hl & _).
Qed.

End ServiceFacts.

Section ServiceRuns.
Context `{Libraries}.
Variable turbo : SM (TTSAdapter SWorld).

(** [transcribe] of the Whisper adapter never touches the objects and never
    loads a Chatterbox model. *)
Lemma whisper_keeps_objects (model : WhisperModel) audio content_type (w : SWorld) :
  let r := LocalWhisper_transcribe model audio content_type w in
  heap r.2 = heap w /\ loads (calls r.2) = loads (calls w).
Proof.
  cbn zeta.
  unfold LocalWhisper_transcribe, sbind, finally, NamedTemporaryFile, f_write,
    os_unlink, sret, lib, set_fs.
  cbn [fs ext environ heap calls].
  destruct (whisper_transcribe _ _ _ _) as [[result|e] x];
    cbn [fs ext environ heap calls];
    destruct (_ !! _); cbn [snd heap calls]; rewrite loads_app; cbn;
    (split; [done|lia]).
Qed.

Lemma loop_loaded self model c (xs : list Z) :
  let tts := {| synthesize := Chatterbox_synthesize self |} in
  let asr := {| transcribe := LocalWhisper_transcribe model |} in
  forall text (w : SWorld),
  loaded self c w ->
  loaded self c
    (world (@for_ (services turbo) _ _ xs
              (@child_step (services turbo) tts asr) text w)).
Proof.
  intros tts asr. induction xs as [|x xs IH]; intros text w Hw; [done|].
  cbn [for_]. unfold bind.
  rewrite (@child_step_eq (services turbo)).
  cbn [synthesize transcribe tts asr].
  destruct Hw as (obj & m & Hobj & Hm & Hc).
  destruct (synthesize_loaded self text w obj m Hobj Hm) as (Hh & _ & _ & Hl).
  destruct (Chatterbox_synthesize self text w) as [[audio|e] w1];
    cbn [snd] in Hh, Hl.
  - pose proof (whisper_keeps_objects model audio "audio/wav" w1) as [Hh2 Hl2].
    destruct (LocalWhisper_transcribe model audio "audio/wav" w1)
      as [[text'|e] w2]; cbn [snd] in Hh2, Hl2.
    + assert (loaded self c w2) as Hw2.
      { exists obj, m. rewrite Hh2, Hh, Hl2, Hl. done. }
      specialize (IH text' w2 Hw2).
      by destruct (@for_ (services turbo) _ _ xs _ text' w2).
    + destruct (isinstance_Exception e); cbn [world];
        exists obj, m; rewrite Hh2, Hh, Hl2, Hl; done.
  - destruct (isinstance_Exception e); cbn [world];
      exists obj, m; rewrite Hh, Hl; done.
Qed.

Lemma loop_unloaded self model obj (xs : list Z) text (w : SWorld) :
  let tts := {| synthesize := Chatterbox_synthesize self |} in
  let asr := {| transcribe := LocalWhisper_transcribe model |} in
  heap w !! self = Some obj ->
  _model obj = None ->
  let r := @for_ (services turbo) _ _ xs
             (@child_step (services turbo) tts asr) text w in
  match xs with
  | [] => r = @mkOut (services turbo) _ [] (Normal text) w
  | _ :: _ =>
      loads (calls (world r)) = S (loads (calls w)) /\
      backend_calls (trace r) <> []
  end.
Proof.
  intros tts asr Hobj Hm r. subst r. destruct xs as [|x xs]; [done|].
  cbn [for_]. unfold bind.
  rewrite (@child_step_eq (services turbo)).
  cbn [synthesize transcribe tts asr].
  destruct (synthesize_unloaded self text w obj Hobj Hm) as (Hl & _ & Hcase).
  destruct (Chatterbox_synthesize self text w) as [[audio|e] w1];
    cbn [snd] in Hl, Hcase.
  - destruct (from_pretrained (_device obj) (ext w)) as [[m|e] x'];
      [|discriminate Hcase].
    pose proof (whisper_keeps_objects model audio "audio/wav" w1) as [Hh2 Hl2].
    destruct (LocalWhisper_transcribe model audio "audio/wav" w1)
      as [[text'|e] w2]; cbn [snd] in Hh2, Hl2.
    + assert (loaded self (S (loads (calls w))) w2) as Hw2.
      { eexists _, m. rewrite Hh2, Hcase, Hl2, Hl.
        split; [apply lookup_insert_eq|done]. }
      pose proof (loop_loaded self model _ xs text' w2 Hw2) as Hloop.
      cbn zeta in Hloop. fold tts asr in Hloop |- *.
      destruct (@for_ (services turbo) _ _ xs _ text' w2) as [tr o w3].
      cbn [world trace] in *.
      destruct Hloop as (? & ? & _ & _ & ->). done.
    + destruct (isinstance_Exception e); cbn [world trace];
        (split; [lia|done]).
  - destruct (isinstance_Exception e); cbn [world trace]; (split; [lia|done]).
Qed.

(** X16: on the adapters of the repository, with the synthesis key
    "chatterbox", a run calls [from_pretrained] exactly once if it makes a
    call of [synthesize] or [transcribe], and not at all otherwise, whatever
    the world it starts from: a model loaded by an earlier run is not
    used again. *)
Theorem run_loads_chatterbox_once (N : Z) asr_model initial_text voice (w : SWorld) :
  let r := @_run_telephone_stream (services turbo) N asr_model "chatterbox"
             initial_text voice w in
  (backend_calls (trace r) = [] -> loads (calls (world r)) = loads (calls w)) /\
  (backend_calls (trace r) <> [] -> loads (calls (world r)) = S (loads (calls w))).
Proof.
  cbn zeta. unfold _run_telephone_stream.
  destruct (@ASR_MODELS (services turbo) !! asr_model) as [asr_cls|] eqn:Hasr.
  2:{ rewrite (bind_raised _ _ _ _ _ _
                 (@get_asr_unknown (services turbo) _ w Hasr)).
      cbn [trace world backend_calls]. done. }
  pose proof (@get_asr_known (services turbo) _ _ w Hasr) as Hget.
  unfold ASR_MODELS in Hasr. apply lookup_singleton_Some in Hasr as [<- <-].
  cbn [LocalWhisperASRAdapter services] in Hget.
  unfold LocalWhisperASRAdapter_init, sbind, lib, sret in Hget.
  destruct (whisper_load_model "base" (ext w)) as [[model|e] x].
  2:{ rewrite (bind_raised _ _ _ _ _ _ Hget).
      cbn [trace world backend_calls calls heap]. rewrite loads_app. cbn.
      split; [lia|done]. }
  rewrite (bind_normal _ _ _ _ _ _ Hget). clear Hget.
  set (w1 := {| ext := x; fs := fs w; environ := environ w; heap := heap w;
                calls := calls w ++ [WhisperLoad "base"] |}).
  assert (@TTS_MODELS (services turbo) !! "chatterbox"
          = Some (ChatterboxTTSAdapter_init None None)) as Htts
    by apply lookup_insert_eq.
  pose proof (@get_tts_known (services turbo) _ None _ w1 Htts) as Hget.
  unfold ChatterboxTTSAdapter_init in Hget. cbn [Py.opt_or Py.truthy] in Hget.
  set (self := fresh (dom (heap w1))) in *.
  set (obj := {| _device := _get_device w1;
                 _audio_prompt_path := environ w1 !! "CHATTERBOX_PROMPT_PATH";
                 _model := None |}) in *.
  set (w2 := set_heap (<[self := obj]> (heap w1)) w1) in *.
  rewrite (bind_normal _ _ _ _ _ _ Hget). clear Hget.
  assert (loads (calls w2) = loads (calls w)) as Hl2.
  { subst w2 w1. cbn [set_heap calls]. rewrite loads_app. cbn. lia. }
  cbn [trace outcome world app].
  destruct (Py.truthy (Py.strip initial_text)) eqn:Htext; cbn [negb].
  2:{ rewrite (@bind_raised (services turbo) _ _ _ _ w2 []
                 (ValueError "Initial text is empty") w2) by reflexivity.
      cbn [trace world backend_calls]. done. }
  rewrite (@bind_normal (services turbo) _ _ _ _ w2 [] tt w2) by reflexivity.
  cbn [trace outcome world app backend_calls].
  pose proof (loop_unloaded self model obj (range N) (Py.strip initial_text) w2)
    as Hloop. cbn zeta in Hloop.
  specialize (Hloop (lookup_insert_eq _ _ _) eq_refl).
  destruct (range N) as [|k ks] eqn:Hrange.
  - rewrite (bind_normal _ _ _ _ _ _ Hloop).
    cbn [yield_ trace world app backend_calls]. done.
  - destruct Hloop as [Hl Hcalls].
    destruct (@for_ (services turbo) _ _ (k :: ks) _ (Py.strip initial_text) w2)
      as [tr o w3] eqn:Hfor.
    cbn [trace world] in Hl, Hcalls.
    destruct o as [t|e|].
    + rewrite (bind_normal _ _ _ _ _ _ Hfor).
      cbn [yield_ trace world]. rewrite backend_calls_app.
      split; [|lia].
      intros Hnil. apply app_eq_nil in Hnil as [Hnil _]. done.
    + rewrite (bind_raised _ _ _ _ _ _ Hfor). cbn [trace world].
      split; [done|lia].
    + rewrite (bind_returned _ _ _ _ _ Hfor). cbn [trace world].
      split; [done|lia].
Qed.

End ServiceRuns.

(** ** The frames *)

Lemma all_printable_app a b :
  Str.all_printable (a +:+ b) = Str.all_printable a && Str.all_printable b.
Proof.
  induction a as [|c a IH]; [done|].
  change (Str.all_printable (String c a +:+ b))
    with (Str.printable c && Str.all_printable (a +:+ b)).
  cbn [Str.all_printable]. by rewrite IH, andb_assoc.
Qed.

Lemma escape_printable c : Str.all_printable (Json.escape c) = true.
Proof. destruct c as [[] [] [] [] [] [] [] []]; vm_compute; reflexivity. Qed.

Lemma escape_all_printable s : Str.all_printable (Json.escape_all s) = true.
Proof.
  induction s as [|c s IH]; [done|].
  cbn [Json.escape_all]. by rewrite all_printable_app, escape_printable, IH.
Qed.

Lemma dumps_str_printable s : Str.all_printable (Json.dumps_str s) = true.
Proof.
  unfold Json.dumps_str. cbn [Str.all_printable].
  by rewrite all_printable_app, escape_all_printable.
Qed.

Lemma string_of_uint_printable d :
  Str.all_printable (NilEmpty.string_of_uint d) = true.
Proof. induction d; cbn [NilEmpty.string_of_uint Str.all_printable]; by rewrite ?IHd. Qed.

Lemma string_of_int_printable i :
  Str.all_printable (NilZero.string_of_int i) = true.
Proof.
  destruct i as [d|d]; cbn [NilZero.string_of_int NilZero.string_of_uint].
  - destruct d; try done; apply (string_of_uint_printable (_ _)).
  - cbn [Str.all_printable].
    destruct d; try done; apply (string_of_uint_printable (_ _)).
Qed.

Lemma dumps_val_printable v : Str.all_printable (Json.dumps_val v) = true.
Proof.
  destruct v; [apply dumps_str_printable|apply string_of_int_printable].
Qed.

Lemma dumps_items_printable d : Str.all_printable (Json.dumps_items d) = true.
Proof.
  induction d as [|[k v] d IH]; [done|].
  destruct d as [|kv d].
  - cbn [Json.dumps_items].
    by rewrite !all_printable_app, dumps_str_printable, dumps_val_printable.
  - change (Json.dumps_items ((k, v) :: kv :: d))
      with (Json.dumps_str k +:+ ": " +:+ Json.dumps_val v +:+ ", "
            +:+ Json.dumps_items (kv :: d)).
    by rewrite !all_printable_app, dumps_str_printable, dumps_val_printable, IH.
Qed.

(** X11: a frame is "data: ", the JSON text of the event and two line
    feeds; the part before the line feeds is made of printable ASCII
    characters only, whatever the texts and messages of the event, so the
    frame has no line break but its last two characters. *)
Theorem sse_frame_is_one_line (data : Dict) :
  _sse_message data
  = ("data: " +:+ Json.dumps data)
    +:+ String Json.newline (String Json.newline EmptyString) /\
  Str.all_printable ("data: " +:+ Json.dumps data) = true.
Proof.
  split.
  - unfold _sse_message. generalize (Json.dumps data). intros s.
    generalize (String Json.newline (String Json.newline EmptyString)).
    intros t. reflexivity.
  - unfold Json.dumps.
    by rewrite !all_printable_app, dumps_items_printable.
Qed.

Section Listing.
Context `{Models}.

(** X17: [GET /api/models] lists "whisper" for recognition and
    "chatterbox" and "chatterbox-turbo" for synthesis, and the listed keys
    are exactly those the resolvers accept: for a listed key the resolver
    instantiates the class of the key, for any other key it raises the
    unknown-model [HTTPException] of status 400 without instantiating
    anything. *)
Theorem listed_models_resolve (key : string) (w : World) :
  list_models.1 ≡ₚ ["whisper"] /\
  list_models.2 ≡ₚ ["chatterbox"; "chatterbox-turbo"] /\
  (key ∈ list_models.1 ->
     exists ok, trace (_get_asr key w) = [Instantiate "ASR_MODELS" key ok]) /\
  (key ∉ list_models.1 ->
     _get_asr key w
     = mkOut [] (Raised (HTTPException 400 ("Unknown ASR model: " +:+ key))) w) /\
  (key ∈ list_models.2 ->
     exists ok, trace (_get_tts key None w) = [Instantiate "TTS_MODELS" key ok]) /\
  (key ∉ list_models.2 ->
     _get_tts key None w
     = mkOut [] (Raised (HTTPException 400 ("Unknown TTS model: " +:+ key))) w).
Proof.
  unfold list_models. cbn [fst snd].
  assert (forall {A} (m : gmap string A) k,
            k ∈ (map_to_list m).*1 <-> is_Some (m !! k)) as Hin.
  { intros A m k. rewrite list_elem_of_fmap. split.
    - intros ([k' v] & -> & Hkv). apply elem_of_map_to_list in Hkv. by eexists.
    - intros [v Hv]. exists (k, v). split; [done|]. by apply elem_of_map_to_list. }
  split; [unfold ASR_MODELS; by rewrite map_to_list_singleton|].
  split.
  { unfold TTS_MODELS. rewrite map_to_list_insert by done.
    by rewrite map_to_list_singleton. }
  split; [|split; [|split]].
  - intros [cls Hk]%Hin. rewrite (get_asr_known _ _ w Hk).
    destruct (cls w) as [[a|e] w']; by eexists.
  - intros Hk. apply get_asr_unknown. apply eq_None_not_Some. by rewrite <- Hin.
  - intros [cls Hk]%Hin. rewrite (get_tts_known _ None _ w Hk).
    destruct (cls w) as [[a|e] w']; by eexists.
  - intros Hk. apply get_tts_unknown. apply eq_None_not_Some. by rewrite <- Hin.
Qed.

End Listing.

(** ** The audio field *)

Lemma escape_char_of_upto :
  forallb (fun n => String.eqb (Json.escape (Base64.char_of n))
                      (String (Base64.char_of n) EmptyString))
    (map N.of_nat (seq 0 64)) = true.
Proof. vm_compute. reflexivity. Qed.

Lemma escape_char_of n :
  (n < 64)%N ->
  Json.escape (Base64.char_of n) = String (Base64.char_of n) EmptyString.
Proof.
  intros Hn. pose proof escape_char_of_upto as Hall.
  rewrite forallb_forall in Hall. apply String.eqb_eq, Hall.
  apply in_map_iff. exists (N.to_nat n). split; [lia|]. apply in_seq. lia.
Qed.

Lemma escape_all_b64encode_upto n :
  forall bs : list byte, (length bs <= n)%nat ->
  Json.escape_all (Base64.b64encode bs) = Base64.b64encode bs /\
  String.length (Base64.b64encode bs) = (4 * ((length bs + 2) / 3))%nat.
Proof.
  induction n as [n IH] using lt_wf_ind. intros bs Hlen.
  destruct bs as [|a [|b [|c rest]]]; [done| | |];
    cbn [Base64.b64encode Json.escape_all String.length length];
    rewrite ?escape_char_of by Base64Facts.b64_arith.
  - done.
  - done.
  - destruct (IH (length rest)) with (bs := rest) as [-> ->];
      [simpl in Hlen; lia|done|].
    split; [done|].
    replace (S (S (S (length rest))) + 2)%nat with (1 * 3 + (length rest + 2))%nat
      by lia.
    rewrite Nat.div_add_l by done. lia.
Qed.

(** X18: the base64 text of n bytes has 4 * ceil(n / 3) characters, and
    [json.dumps] escapes none of them: in a frame the audio field is the
    base64 text between two double quotes. *)
Theorem audio_field_is_literal (audio_bytes : list byte) :
  Json.dumps_str (Base64.b64encode audio_bytes)
  = String Json.quote (Base64.b64encode audio_bytes +:+ String Json.quote EmptyString) /\
  String.length (Base64.b64encode audio_bytes)
  = (4 * ((length audio_bytes + 2) / 3))%nat.
Proof.
  destruct (escape_all_b64encode_upto (length audio_bytes) audio_bytes) as [He Hl];
    [done|].
  split; [|done]. unfold Json.dumps_str. by rewrite He.
Qed.

(** * Instances of the further properties *)

Lemma stt_failure_events_witness :
  let oks := [Synthesize "hello world" (Ok Demo.fixed_audio);
              Transcribe Demo.fixed_audio "audio/wav" (Ok "hello world");
              Synthesize "hello world" (Ok Demo.fixed_audio)] in
  backend_calls (trace (Demo.run_failing_at 3 Demo.RuntimeError 3))
  = oks ++ [Transcribe Demo.fixed_audio "audio/wav" (Err Demo.RuntimeError)] /\
  forallb action_ok oks = true /\
  events_before_error (events (trace (Demo.run_failing_at 3 Demo.RuntimeError 3)))
  = Some 3%nat /\
  exists d,
    last (events (trace (Demo.run_failing_at 3 Demo.RuntimeError 3))) = Some d /\
    event_type d = Some (JStr "error") /\
    dict_get d "step" = Some (JStr "stt") /\
    dict_get d "child_index" = Some (JInt 1) /\
    dict_get d "message" = Some (JStr "CUDA out of memory") /\
    d = error_event "stt" 1 "CUDA out of memory".
Proof.
  intros oks.
  assert (backend_calls (trace (Demo.run_failing_at 3 Demo.RuntimeError 3))
          = oks ++ [Transcribe Demo.fixed_audio "audio/wav" (Err Demo.RuntimeError)])
    as H1 by reflexivity.
  assert (forallb action_ok oks = true) as H2 by reflexivity.
  destruct (@stt_failure_events (Demo.failing_at 3 Demo.RuntimeError) 3
              "whisper" "chatterbox" "hello world" None 0%nat oks
              Demo.fixed_audio "audio/wav" Demo.RuntimeError H1 H2)
    as (k & Hlen & _ & _ & _ & _ & Hexc & _).
  assert (k = 1%nat) as -> by (simpl in Hlen; lia).
  destruct (Hexc eq_refl) as (Hbefore & _ & Herror & _).
  exact (conj H1 (conj H2 (conj Hbefore Herror))).
Defined.

Lemma text_passed_on_witness :
  let d0 := stt_event 0 "hello world" in
  let d := tts_event 1 "hello world" "UklGRg==" in
  events (trace (Demo.run_echo 2)) !! 1%nat = Some d0 /\
  event_type d0 = Some (JStr "stt") /\
  dict_get d0 "child_index" = Some (JInt 0) /\
  dict_get d0 "text" = Some (JStr "hello world") /\
  events (trace (Demo.run_echo 2)) !! 2%nat = Some d /\
  ((event_type d = Some (JStr "tts") /\
    dict_get d "child_index" = Some (JInt (0 + 1)) /\
    dict_get d "text" = Some (JStr "hello world")) \/
   (event_type d = Some (JStr "error") /\
    dict_get d "step" = Some (JStr "tts") /\
    dict_get d "child_index" = Some (JInt (0 + 1))) \/
   (event_type d = Some (JStr "done") /\
    dict_get d "final_text" = Some (JStr "hello world"))).
Proof.
  intros d0 d.
  assert (events (trace (Demo.run_echo 2)) !! 1%nat = Some d0) as H1
    by reflexivity.
  assert (event_type d0 = Some (JStr "stt")) as H2 by reflexivity.
  assert (dict_get d0 "child_index" = Some (JInt 0)) as H3 by reflexivity.
  assert (dict_get d0 "text" = Some (JStr "hello world")) as H4 by reflexivity.
  assert (events (trace (Demo.run_echo 2)) !! 2%nat = Some d) as H5
    by reflexivity.
  exact (conj H1 (conj H2 (conj H3 (conj H4 (conj H5
    (proj1 (proj2 (@text_passed_on Demo.echo 2 "whisper" "chatterbox"
                     "hello world" None 0%nat))
       1%nat 0 "hello world" d0 d H1 H2 H3 H4 H5)))))).
Defined.

Lemma calls_in_order_witness :
  backend_calls (trace (Demo.run_echo 2)) !! 0%nat
  = Some (Synthesize "hello world" (Ok Demo.fixed_audio)) /\
  exists res,
    backend_calls (trace (Demo.run_echo 2)) !! 1%nat
    = Some (Transcribe Demo.fixed_audio "audio/wav" res).
Proof.
  assert (backend_calls (trace (Demo.run_echo 2)) !! 0%nat
          = Some (Synthesize "hello world" (Ok Demo.fixed_audio))) as H1
    by reflexivity.
  exact (conj H1
    (proj1 (proj2 (@calls_in_order Demo.echo 2 "whisper" "chatterbox"
                     "hello world" None 0%nat)) 0%nat "hello world"
       Demo.fixed_audio H1)).
Defined.

Lemma text_request_served_witness :
  Py.truthy (Py.strip (Py.opt_or (Some " hello world ") "")) = true /\
  @serve Demo.echo (@start_game_stream Demo.echo 2 "whisper" "chatterbox"
                      (Some " hello world ") None) 0%nat
  = @_run_telephone_stream Demo.echo 2 "whisper" "chatterbox"
      (Py.opt_or (Some " hello world ") "") None 0%nat.
Proof.
  assert (Py.truthy (Py.strip (Py.opt_or (Some " hello world ") "")) = true)
    as H1 by reflexivity.
  exact (conj H1
    (proj2 (@text_request_served Demo.echo 2 "whisper" "chatterbox"
              (Some " hello world ") 0%nat H1))).
Defined.

Lemma json_request_served_witness :
  GameParams_valid DemoRequests.body = true /\
  Py.truthy (Py.strip (Py.opt_or (gp_text DemoRequests.body) "")) = true /\
  (length (events (trace (@serve Demo.echo
                            (@route_start_json Demo.echo DemoRequests.body) 0%nat)))
   <= 41)%nat.
Proof.
  assert (GameParams_valid DemoRequests.body = true) as H1 by reflexivity.
  assert (Py.truthy (Py.strip (Py.opt_or (gp_text DemoRequests.body) "")) = true)
    as H2 by reflexivity.
  exact (conj H1 (conj H2
    (proj1 (proj2 (@json_request_served Demo.echo DemoRequests.body 0%nat H1 H2))))).
Defined.

Lemma text_and_audio_rejected_witness :
  Py.truthy (Py.strip (Py.opt_or (Some "hi") "")) = true /\
  @serve Demo.echo (@start_game_stream Demo.echo 2 "whisper" "chatterbox"
                      (Some "hi") (Some DemoRequests.clip)) 0%nat
  = @mkOut Demo.echo _ []
      (Raised (HTTPException 400 "Provide either 'text' or 'audio', not both."))
      0%nat.
Proof.
  assert (Py.truthy (Py.strip (Py.opt_or (Some "hi") "")) = true) as H1
    by reflexivity.
  exact (conj H1
    (proj2 (@text_and_audio_rejected Demo.echo 2 "whisper" "chatterbox"
              (Some "hi") DemoRequests.clip 0%nat H1))).
Defined.

Lemma audio_request_rejected_witness :
  Py.all_space (Py.opt_or None "") = true /\
  @serve (Demo.failing_at 0 Demo.RuntimeError)
    (@start_game_stream (Demo.failing_at 0 Demo.RuntimeError) 2 "whisper"
       "chatterbox" None (Some DemoRequests.clip)) 0%nat
  = @mkOut (Demo.failing_at 0 Demo.RuntimeError) _
      [Instantiate "ASR_MODELS" "whisper" true;
       Transcribe Demo.fixed_audio "audio/wav" (Err Demo.RuntimeError)]
      (Raised (HTTPException 400 "ASR failed: CUDA out of memory")) 1%nat.
Proof.
  assert (Py.all_space (Py.opt_or None "") = true) as H1 by reflexivity.
  destruct (@audio_request_rejected (Demo.failing_at 0 Demo.RuntimeError) 2
              "whisper" "chatterbox" None DemoRequests.clip 0%nat H1)
    as [_ Hcases].
  destruct (Hcases _ _ _ _ _ eq_refl eq_refl) as (Hexc & _ & _).
  exact (conj H1 (Hexc Demo.RuntimeError eq_refl eq_refl)).
Defined.

Lemma audio_request_served_witness :
  Py.all_space (Py.opt_or None "") = true /\
  Py.truthy "hello world" = true /\
  exists ok,
    trace (@serve Demo.echo
             (@start_game_stream Demo.echo 2 "whisper" "chatterbox" None
                (Some DemoRequests.clip)) 0%nat) !! 2%nat
    = Some (Instantiate "ASR_MODELS" "whisper" ok).
Proof.
  assert (Py.all_space (Py.opt_or None "") = true) as H1 by reflexivity.
  assert (Py.truthy "hello world" = true) as H2 by reflexivity.
  destruct (@audio_request_served Demo.echo 2 "whisper" "chatterbox" None
              DemoRequests.clip 0%nat _ _ _ "hello world" _ H1 eq_refl eq_refl H2)
    as (Hserve & _ & ok & Hsecond).
  refine (conj H1 (conj H2 (ex_intro _ ok _))).
  rewrite Hserve. exact Hsecond.
Defined.


Lemma whisper_transcribe_cleans_up_witness :
  fs (DemoServices.boot true) !! "/tmp/tmpk3v9.wav" = None /\
  fs (@LocalWhisper_transcribe (DemoServices.libs true) tt Demo.fixed_audio
        "audio/x-wav" (DemoServices.boot true)).2
  = fs (DemoServices.boot true).
Proof.
  assert (fs (DemoServices.boot true) !! "/tmp/tmpk3v9.wav" = None) as H1
    by reflexivity.
  exact (conj H1
    (proj1 (@whisper_transcribe_cleans_up (DemoServices.libs true) tt
              Demo.fixed_audio "audio/x-wav" (DemoServices.boot true) H1))).
Defined.

Lemma whisper_text_is_stripped_witness :
  (@LocalWhisper_transcribe (DemoServices.libs true) tt Demo.fixed_audio
     "audio/wav" (DemoServices.boot true)).1 = Ok "hello world" /\
  Py.strip "hello world" = "hello world".
Proof.
  assert ((@LocalWhisper_transcribe (DemoServices.libs true) tt Demo.fixed_audio
             "audio/wav" (DemoServices.boot true)).1 = Ok "hello world") as H1
    by reflexivity.
  exact (conj H1
    (proj1 (@whisper_text_is_stripped (DemoServices.libs true) tt
              Demo.fixed_audio "audio/wav" (DemoServices.boot true)
              "hello world" H1))).
Defined.

Lemma chatterbox_loads_once_witness :
  is_Ok (@Chatterbox_synthesize (DemoServices.libs true) 0 "hello"
           (DemoServices.with_adapter true)).1 = true /\
  loads (calls (@Chatterbox_synthesize (DemoServices.libs true) 0 "world"
                  (@Chatterbox_synthesize (DemoServices.libs true) 0 "hello"
                     (DemoServices.with_adapter true)).2).2)
  = loads (calls (@Chatterbox_synthesize (DemoServices.libs true) 0 "hello"
                    (DemoServices.with_adapter true)).2).
Proof.
  assert (is_Ok (@Chatterbox_synthesize (DemoServices.libs true) 0 "hello"
                   (DemoServices.with_adapter true)).1 = true) as H1
    by reflexivity.
  exact (conj H1
    (proj1 (proj2 (@chatterbox_loads_once (DemoServices.libs true) 0%nat
                     "hello" "world" (DemoServices.with_adapter true)
                     (ex_intro _ _ eq_refl) H1)))).
Defined.

Lemma chatterbox_load_failure_retried_witness :
  (@Chatterbox_synthesize (DemoServices.libs false) 0 "hello"
     (DemoServices.with_adapter false)).1
  = Err (Exc "OSError" true "weights not found") /\
  loads (calls (@Chatterbox_synthesize (DemoServices.libs false) 0 "world"
                  (@Chatterbox_synthesize (DemoServices.libs false) 0 "hello"
                     (DemoServices.with_adapter false)).2).2)
  = 2%nat.
Proof.
  destruct (@chatterbox_load_failure_retried (DemoServices.libs false) 0%nat
              "hello" "world" (DemoServices.with_adapter false) _ _ _
              eq_refl eq_refl eq_refl) as (Hres & _ & _ & Hloads).
  exact (conj Hres Hloads).
Defined.

Lemma run_loads_chatterbox_once_witness :
  backend_calls (trace (DemoServices.run true 2)) <> [] /\
  loads (calls (world (DemoServices.run true 2))) = 1%nat.
Proof.
  assert (backend_calls (trace (DemoServices.run true 2)) <> []) as H1
    by (vm_compute; discriminate).
  exact (conj H1
    (proj2 (@run_loads_chatterbox_once (DemoServices.libs true)
              (@ChatterboxTTSAdapter_init (DemoServices.libs true) None None)
              2 "whisper" "hello" None (DemoServices.boot true)) H1)).
Defined.

Lemma listed_models_resolve_witness :
  "whisper" ∈ (@list_models Demo.echo).1 /\
  exists ok,
    trace (@_get_asr Demo.echo "whisper" 0%nat)
    = [Instantiate "ASR_MODELS" "whisper" ok].
Proof.
  assert ("whisper" ∈ (@list_models Demo.echo).1) as H1
    by (vm_compute; left).
  exact (conj H1
    (proj1 (proj2 (proj2 (@listed_models_resolve Demo.echo "whisper" 0%nat))) H1)).
Defined.
